(** * GRF_visualizer: the streaming core of [fullscreen_grf.py] and
      [punchingmachine.py]

    The two applications receive timestamped force samples, keep a sliding
    window of recent samples, detect "mountains" (pulses) by threshold
    crossing, keep the last three mountains, track a decaying maximum
    (full-screen variant) and a top-5 score list (punching variant).

    Numbers.  Timestamps and forces are Python floats.  Two models are used.

    In the modules [Window], [Fullscreen] and [Punching] a float is the
    rational number it denotes ([Q]).  This covers finite floats only: a NaN
    or an infinity is not a rational, so what is proved there is proved for
    streams of finite samples.  Comparisons and [max] are exact on finite
    floats; the three subtractions of the code
    ([timestamp - last_mountain_timestamp], [latest_time - data_buffer[0][0]],
    [timestamp - max_timestamp]) are taken without rounding.

    The statements that depend on how a difference is rounded, those about
    the eviction loop and about the decay of the maximum, are made in the
    module [Binary64] instead, where [update_plot] and [update_max_value] are
    embedded again on IEEE binary64 floats (Rocq's primitive floats), with
    NaN, infinities and round-to-nearest subtraction as Python has them.

    Scores are Python ints, modelled as [Z].

    Effects.  Widgets are records; a method is a function from the widget to
    the updated widget.  A Qt signal emitted by a method is returned in a list,
    in emission order, and the main window runs the connected slots over that
    list.  A Python exception is [None].  Label texts are modelled by an
    enumeration of the messages; [QTimer.singleShot] callbacks, which only put
    the default message back three seconds later, and all plotting calls are
    left out. *)

From Stdlib Require Import QArith Lqa ZArith Lia List Bool String.
From Stdlib Require Import Sorting.Sorted Sorting.Permutation.
From Stdlib Require Import Floats.
Import ListNotations.

Open Scope Q_scope.

(** ** Python primitives used by both applications *)

Module Py.

(** A sample is the tuple [(timestamp, force)]. *)
Abbreviation sample := (Q * Q)%type.

Definition gtb (x y : Q) : bool := negb (Qle_bool x y).
Definition leb (x y : Q) : bool := Qle_bool x y.
Definition geb (x y : Q) : bool := Qle_bool y x.

(** [int(x)] on a finite float: truncation toward zero.  (On an infinity or
    a NaN, which are not rationals, Python raises.) *)
Definition int (x : Q) : Z := Z.quot (Qnum x) (Zpos (Qden x)).

(** [max(iterable)]: the running maximum is replaced only by a strictly
    greater item; [ValueError] on an empty list. *)
Fixpoint max_from (m : Q) (l : list Q) : Q :=
  match l with
  | [] => m
  | x :: r => max_from (if gtb x m then x else m) r
  end.

Definition max (l : list Q) : option Q :=
  match l with
  | [] => None
  | x :: r => Some (max_from x r)
  end.

(** [max(a, b)] on two arguments. *)
Definition max2 (a b : Q) : Q := if gtb b a then b else a.

(** [deque(maxlen=n).append(x)]: a full deque drops its leftmost item. *)
Definition deque_append {A} (maxlen : nat) (d : list A) (x : A) : list A :=
  (if (maxlen <=? List.length d)%nat then tl d else d) ++ [x].

(** [list.sort(reverse=True)] on ints: a stable insertion into a
    non-increasing list. *)
Fixpoint insert_desc (x : Z) (l : list Z) : list Z :=
  match l with
  | [] => [x]
  | y :: r => if (y <? x)%Z then x :: y :: r else y :: insert_desc x r
  end.

Fixpoint sort_reverse (l : list Z) : list Z :=
  match l with
  | [] => []
  | x :: r => insert_desc x (sort_reverse r)
  end.

(** The error monad: [None] is a raised exception. *)
Definition bind {A B} (m : option A) (k : A -> option B) : option B :=
  match m with
  | Some a => k a
  | None => None
  end.

End Py.

Notation "x <- m ;; k" := (Py.bind m (fun x => k))
  (at level 61, m at next level, right associativity).
Notation "' p <- m ;; k" := (Py.bind m (fun q => let p := q in k))
  (at level 61, p pattern, m at next level, right associativity).

(** ** The sliding window: [update_plot], identical in both files *)

Module Window.

(** The [while] loop of [update_plot]: pop from the left while the front
    entry is more than 5.0 s older than [latest_time]. *)
Fixpoint popleft_while (latest_time : Q) (d : list Py.sample) : list Py.sample :=
  match d with
  | [] => []
  | e :: r =>
      if Py.gtb (latest_time - fst e) 5.0 then popleft_while latest_time r
      else d
  end.

(** [update_plot], restricted to what it does to [data_buffer]. *)
Definition update_plot (d : list Py.sample) : list Py.sample :=
  if (List.length d <? 2)%nat then d
  else popleft_while (fst (last d (0, 0))) d.

(** [self.data_buffer.append((timestamp, force))] followed, at the end of
    [update_data], by [update_plot]; the detector in between does not touch
    the buffer. *)
Definition append_and_evict (d : list Py.sample) (s : Py.sample) : list Py.sample :=
  update_plot (Py.deque_append 500 d s).

Fixpoint feed (d : list Py.sample) (stream : list Py.sample) : list Py.sample :=
  match stream with
  | [] => d
  | s :: r => feed (append_and_evict d s) r
  end.

(** [prev_force] of [detect_mountain]: the force of [data_buffer[-2]], or 0
    when the buffer holds fewer than two samples. *)
Definition prev_force (d : list Py.sample) : Q :=
  match rev d with
  | _ :: p :: _ => snd p
  | _ => 0
  end.

End Window.

(** ** [fullscreen_grf.py] *)

Module Fullscreen.

(** The two signals of [RealtimeDisplayWidget]. *)
Inductive signal : Type :=
| mountain_detected (mountain_data : list Py.sample)
| max_value_updated (timestamp force : Q) (mountain_data : list Py.sample).

(** *** [MaxValueWidget] *)

Record MaxValueWidget : Type := {
  max_force : Q;
  max_timestamp : Q;
  max_mountain_data : list Py.sample
}.

Definition MaxValueWidget_init_data : MaxValueWidget :=
  {| max_force := 0; max_timestamp := 0; max_mountain_data := [] |}.

(** The first [if] of [update_max_value]: the reset after 10 s. *)
Definition reset_if_expired (timestamp : Q) (w : MaxValueWidget) : MaxValueWidget :=
  if Py.gtb (timestamp - max_timestamp w) 10.0
  then {| max_force := 0; max_timestamp := max_timestamp w;
          max_mountain_data := [] |}
  else w.

Definition update_max_value (timestamp force : Q) (mountain_data : list Py.sample)
    (w : MaxValueWidget) : MaxValueWidget :=
  let w1 := reset_if_expired timestamp w in
  if Py.gtb force (max_force w1)
  then {| max_force := force; max_timestamp := timestamp;
          max_mountain_data :=
            match mountain_data with
            | [] => max_mountain_data w1
            | _ :: _ => mountain_data
            end |}
  else w1.

(** The text of [timer_label] after [update_max_value]. *)
Definition remaining_time (timestamp : Q) (w : MaxValueWidget) : Q :=
  Py.max2 0 (10.0 - (timestamp - max_timestamp w)).

(** *** [PastWaveformsWidget] *)

Record PastWaveformsWidget : Type := {
  past_mountains : list (list Py.sample)
}.

Definition PastWaveformsWidget_init : PastWaveformsWidget :=
  {| past_mountains := [] |}.

Definition add_new_waveform (mountain_data : list Py.sample)
    (w : PastWaveformsWidget) : PastWaveformsWidget :=
  match mountain_data with
  | [] => w
  | _ :: _ => {| past_mountains := firstn 3 (mountain_data :: past_mountains w) |}
  end.

(** *** [RealtimeDisplayWidget] *)

Inductive status : Type :=
| Receiving
| Detecting
| Detected
| Ignoring (remaining_time : Q).

Record RealtimeDisplayWidget : Type := {
  data_buffer : list Py.sample;
  current_mountain : list Py.sample;
  in_mountain : bool;
  last_mountain_timestamp : Q;
  status_label : status
}.

Definition init_data : RealtimeDisplayWidget :=
  {| data_buffer := []; current_mountain := []; in_mountain := false;
     last_mountain_timestamp := 0; status_label := Receiving |}.

Definition detect_mountain (timestamp force : Q) (w : RealtimeDisplayWidget)
    : option (RealtimeDisplayWidget * list signal) :=
  let prev_force := Window.prev_force (data_buffer w) in
  if negb (in_mountain w) && Py.leb prev_force 0 && Py.gtb force 0 then
    Some ({| data_buffer := data_buffer w;
             current_mountain := [(timestamp, force)];
             in_mountain := true;
             last_mountain_timestamp := last_mountain_timestamp w;
             status_label := Detecting |}, [])
  else if in_mountain w && Py.gtb force 0 then
    Some ({| data_buffer := data_buffer w;
             current_mountain := current_mountain w ++ [(timestamp, force)];
             in_mountain := true;
             last_mountain_timestamp := last_mountain_timestamp w;
             status_label := status_label w |}, [])
  else if in_mountain w && Py.leb force 0 then
    let mountain := current_mountain w ++ [(timestamp, force)] in
    if Py.geb (timestamp - last_mountain_timestamp w) 1.0 then
      max_force_in_mountain <- Py.max (map snd mountain) ;;
      Some ({| data_buffer := data_buffer w;
               current_mountain := mountain;
               in_mountain := false;
               last_mountain_timestamp := timestamp;
               status_label := Detected |},
            [mountain_detected mountain;
             max_value_updated timestamp max_force_in_mountain mountain])
    else
      Some ({| data_buffer := data_buffer w;
               current_mountain := mountain;
               in_mountain := false;
               last_mountain_timestamp := last_mountain_timestamp w;
               status_label :=
                 Ignoring (1.0 - (timestamp - last_mountain_timestamp w)) |},
            [])
  else Some (w, []).

Definition with_buffer (d : list Py.sample) (w : RealtimeDisplayWidget)
    : RealtimeDisplayWidget :=
  {| data_buffer := d;
     current_mountain := current_mountain w;
     in_mountain := in_mountain w;
     last_mountain_timestamp := last_mountain_timestamp w;
     status_label := status_label w |}.

Definition update_data (timestamp force : Q) (w : RealtimeDisplayWidget)
    : option (RealtimeDisplayWidget * list signal) :=
  let w1 := with_buffer (Py.deque_append 500 (data_buffer w) (timestamp, force)) w in
  '(w2, detected) <- detect_mountain timestamp force w1 ;;
  Some (with_buffer (Window.update_plot (data_buffer w2)) w2,
        detected ++ [max_value_updated timestamp force []]).

(** *** [MainWindow]: the widgets and the signal connections *)

Record MainWindow : Type := {
  max_value_widget : MaxValueWidget;
  past_waveforms_widget : PastWaveformsWidget;
  realtime_widget : RealtimeDisplayWidget
}.

Definition MainWindow_init : MainWindow :=
  {| max_value_widget := MaxValueWidget_init_data;
     past_waveforms_widget := PastWaveformsWidget_init;
     realtime_widget := init_data |}.

Definition on_mountain_detected (mountain_data : list Py.sample) (m : MainWindow)
    : MainWindow :=
  {| max_value_widget := max_value_widget m;
     past_waveforms_widget := add_new_waveform mountain_data (past_waveforms_widget m);
     realtime_widget := realtime_widget m |}.

Definition on_max_value_updated (timestamp force : Q)
    (mountain_data : list Py.sample) (m : MainWindow) : MainWindow :=
  {| max_value_widget :=
       update_max_value timestamp force mountain_data (max_value_widget m);
     past_waveforms_widget := past_waveforms_widget m;
     realtime_widget := realtime_widget m |}.

Definition slot (m : MainWindow) (s : signal) : MainWindow :=
  match s with
  | mountain_detected d => on_mountain_detected d m
  | max_value_updated t f d => on_max_value_updated t f d m
  end.

(** One [data_received] emission of the receiver: [update_data] on the
    real-time widget, its signals delivered in order. *)
Definition data_received (m : MainWindow) (s : Py.sample)
    : option (MainWindow * list signal) :=
  '(w, signals) <- update_data (fst s) (snd s) (realtime_widget m) ;;
  Some (fold_left slot signals
          {| max_value_widget := max_value_widget m;
             past_waveforms_widget := past_waveforms_widget m;
             realtime_widget := w |},
        signals).

(** A whole stream, with the signals emitted along the way. *)
Fixpoint run (m : MainWindow) (stream : list Py.sample)
    : option (MainWindow * list signal) :=
  match stream with
  | [] => Some (m, [])
  | s :: r =>
      '(m1, sig1) <- data_received m s ;;
      '(m2, sig2) <- run m1 r ;;
      Some (m2, sig1 ++ sig2)
  end.

End Fullscreen.

(** ** [punchingmachine.py] *)

Module Punching.

(** *** [DataReceiver.__init__] *)

Record DataReceiver : Type := {
  port : string;
  baudrate : Z;
  force_multiplier : Q;
  running : bool
}.

Definition DataReceiver_init (port : string) (baudrate : Z) (force_multiplier : Q)
    : DataReceiver :=
  {| port := port; baudrate := baudrate;
     force_multiplier := force_multiplier; running := false |}.

(** *** [PunchingScoreWidget] *)

Record PunchingScoreWidget : Type := {
  score_label : Z;
  comment_color : string;
  high_scores : list Z;
  high_score_label : Z
}.

Definition PunchingScoreWidget_init : PunchingScoreWidget :=
  {| score_label := 0; comment_color := "orange";
     high_scores := []; high_score_label := 0 |}.

(** [update_high_score]; [self.high_scores[0]] raises [IndexError] on an
    empty list. *)
Definition update_high_score (score : Z) (w : PunchingScoreWidget)
    : option PunchingScoreWidget :=
  let scores := firstn 5 (Py.sort_reverse (high_scores w ++ [score])) in
  best <- nth_error scores 0 ;;
  Some {| score_label := score_label w;
          comment_color := comment_color w;
          high_scores := scores;
          high_score_label := best |}.

Definition color_of_score (score : Z) : string :=
  if (score <? 500)%Z then "gray"
  else if (score <? 1000)%Z then "blue"
  else if (score <? 2000)%Z then "orange"
  else if (score <? 3000)%Z then "red"
  else "gold".

Definition update_score (max_force : Q) (w : PunchingScoreWidget)
    : option PunchingScoreWidget :=
  let score := Py.int max_force in
  update_high_score score
    {| score_label := score;
       comment_color := color_of_score score;
       high_scores := high_scores w;
       high_score_label := high_score_label w |}.

(** *** [MountainDisplayWindow] *)

Record MountainDisplayWindow : Type := {
  past_mountains : list (list Py.sample);
  shown_count : Z
}.

Definition MountainDisplayWindow_init : MountainDisplayWindow :=
  {| past_mountains := []; shown_count := 0 |}.

Definition show_mountain (mountain_data : list Py.sample) (mountain_count : Z)
    (w : MountainDisplayWindow) : MountainDisplayWindow :=
  let appended := past_mountains w ++ [mountain_data] in
  {| past_mountains :=
       if (3 <? List.length appended)%nat then tl appended else appended;
     shown_count := mountain_count |}.

(** *** [RealtimeDisplayWidget] *)

Inductive status : Type :=
| Preparing
| InPunch
| Completed (mountain_count : Z) (score : Z).

Record RealtimeDisplayWidget : Type := {
  data_buffer : list Py.sample;
  mountain_count : Z;
  current_mountain : list Py.sample;
  in_mountain : bool;
  last_mountain_time : Q;
  score_widget : PunchingScoreWidget;
  status_label : status
}.

Definition init_data : RealtimeDisplayWidget :=
  {| data_buffer := []; mountain_count := 0; current_mountain := [];
     in_mountain := false; last_mountain_time := 0;
     score_widget := PunchingScoreWidget_init; status_label := Preparing |}.

(** The two literals of [detect_mountain]. *)
Definition start_threshold : Q := 100.
Definition continue_threshold : Q := 50.

Definition detect_mountain (timestamp force : Q) (w : RealtimeDisplayWidget)
    : option (RealtimeDisplayWidget * list (list Py.sample)) :=
  let prev_force := Window.prev_force (data_buffer w) in
  if negb (in_mountain w) && Py.leb prev_force start_threshold
     && Py.gtb force start_threshold then
    Some ({| data_buffer := data_buffer w;
             mountain_count := mountain_count w;
             current_mountain := [(timestamp, force)];
             in_mountain := true;
             last_mountain_time := last_mountain_time w;
             score_widget := score_widget w;
             status_label := InPunch |}, [])
  else if in_mountain w && Py.gtb force continue_threshold then
    Some ({| data_buffer := data_buffer w;
             mountain_count := mountain_count w;
             current_mountain := current_mountain w ++ [(timestamp, force)];
             in_mountain := true;
             last_mountain_time := last_mountain_time w;
             score_widget := score_widget w;
             status_label := status_label w |}, [])
  else if in_mountain w && Py.leb force continue_threshold then
    let mountain := current_mountain w ++ [(timestamp, force)] in
    match mountain with
    | [] =>
        Some ({| data_buffer := data_buffer w;
                 mountain_count := mountain_count w;
                 current_mountain := mountain;
                 in_mountain := false;
                 last_mountain_time := last_mountain_time w;
                 score_widget := score_widget w;
                 status_label := status_label w |}, [])
    | _ :: _ =>
        max_force <- Py.max (map snd mountain) ;;
        scored <- update_score max_force (score_widget w) ;;
        Some ({| data_buffer := data_buffer w;
                 mountain_count := mountain_count w + 1;
                 current_mountain := mountain;
                 in_mountain := false;
                 last_mountain_time := last_mountain_time w;
                 score_widget := scored;
                 status_label :=
                   Completed (mountain_count w + 1) (Py.int max_force) |},
              [mountain])
    end
  else Some (w, []).

Definition with_buffer (d : list Py.sample) (w : RealtimeDisplayWidget)
    : RealtimeDisplayWidget :=
  {| data_buffer := d;
     mountain_count := mountain_count w;
     current_mountain := current_mountain w;
     in_mountain := in_mountain w;
     last_mountain_time := last_mountain_time w;
     score_widget := score_widget w;
     status_label := status_label w |}.

(** [update_data]; the list returned holds the payloads of the
    [mountain_detected] emissions. *)
Definition update_data (timestamp force : Q) (w : RealtimeDisplayWidget)
    : option (RealtimeDisplayWidget * list (list Py.sample)) :=
  let w1 := with_buffer (Py.deque_append 500 (data_buffer w) (timestamp, force)) w in
  '(w2, detected) <- detect_mountain timestamp force w1 ;;
  Some (with_buffer (Window.update_plot (data_buffer w2)) w2, detected).

(** *** [MainWindow] *)

Record MainWindow : Type := {
  realtime_widget : RealtimeDisplayWidget;
  mountain_window : MountainDisplayWindow;
  data_receiver : DataReceiver
}.

(** [MainWindow.__init__]: the widgets, then [init_data_receiver], which
    builds [DataReceiver(force_multiplier=9.8)] with the default port and
    baud rate. *)
Definition MainWindow_init : MainWindow :=
  {| realtime_widget := init_data;
     mountain_window := MountainDisplayWindow_init;
     data_receiver := DataReceiver_init "/dev/cu.usbmodem14101" 9600 9.8 |}.

(** The slot reads [mountain_count] after the detector has incremented it. *)
Definition on_mountain_detected (m : MainWindow) (mountain_data : list Py.sample)
    : MainWindow :=
  {| realtime_widget := realtime_widget m;
     mountain_window :=
       show_mountain mountain_data (mountain_count (realtime_widget m))
         (mountain_window m);
     data_receiver := data_receiver m |}.

Definition data_received (m : MainWindow) (s : Py.sample)
    : option (MainWindow * list (list Py.sample)) :=
  '(w, detected) <- update_data (fst s) (snd s) (realtime_widget m) ;;
  Some (fold_left on_mountain_detected detected
          {| realtime_widget := w;
             mountain_window := mountain_window m;
             data_receiver := data_receiver m |},
        detected).

Fixpoint run (m : MainWindow) (stream : list Py.sample)
    : option (MainWindow * list (list Py.sample)) :=
  match stream with
  | [] => Some (m, [])
  | s :: r =>
      '(m1, d1) <- data_received m s ;;
      '(m2, d2) <- run m1 r ;;
      Some (m2, d1 ++ d2)
  end.

End Punching.

(** ** Scenarios used by the statements below *)

Module Scenario.

(** [peak] is the maximum of the forces of [samples]. *)
Definition is_peak_of (peak : Q) (samples : list Py.sample) : Prop :=
  In peak (map snd samples) /\ forall s, In s samples -> snd s <= peak.

(** The detection scenario of the specification. *)
Definition detection : list Py.sample :=
  [(0, 0); (0.1, 50); (0.2, 150); (0.3, 80); (0.4, 0)].

(** A stream whose timestamps go back in time. *)
Definition backwards : list Py.sample := [(10, 0); (0, 0)].

(** A one-sample pulse of height [peak] at [t0], closed by a zero sample
    0.1 s later. *)
Definition pulse (t0 peak : Q) : list Py.sample := [(t0, peak); (t0 + 0.1, 0)].

(** Two pulses whose closing samples are 0.5 s apart. *)
Definition two_pulses (p1 p2 : Q) : list Py.sample :=
  (0, 0) :: pulse 2 p1 ++ pulse 2.5 p2.

(** Four pulses, two seconds apart, with peaks 10, 20, 30 and 40. *)
Definition four_pulses : list Py.sample :=
  (0, 0) :: pulse 2 10 ++ pulse 4 20 ++ pulse 6 30 ++ pulse 8 40.

(** The real-time widgets in the middle of a pulse. *)
Definition fs_in_pulse : Fullscreen.RealtimeDisplayWidget :=
  {| Fullscreen.data_buffer := [(0, 0); (2, 10); (2.1, 0)];
     Fullscreen.current_mountain := [(2, 10)];
     Fullscreen.in_mountain := true;
     Fullscreen.last_mountain_timestamp := 0;
     Fullscreen.status_label := Fullscreen.Detecting |}.

Definition pm_in_pulse : Punching.RealtimeDisplayWidget :=
  {| Punching.data_buffer := detection;
     Punching.mountain_count := 0;
     Punching.current_mountain := [(0.2, 150); (0.3, 80)];
     Punching.in_mountain := true;
     Punching.last_mountain_time := 0;
     Punching.score_widget := Punching.PunchingScoreWidget_init;
     Punching.status_label := Punching.InPunch |}.

(** "The detector run on [detection] produces exactly one event, which spans
    [start_ts] through [end_ts] and has peak [peak]." *)
Definition detection_yields (start_ts end_ts peak : Q) : Prop :=
  exists m data p,
    Punching.run Punching.MainWindow_init detection = Some (m, [data]) /\
    match data with
    | [] => False
    | first :: _ => fst first == start_ts
    end /\
    fst (last data (0, 0)) == end_ts /\
    Py.max (map snd data) = Some p /\ p == peak.

(** The full-screen window after a stream, from its initial state. *)
Definition fs_after (stream : list Py.sample) : Fullscreen.MainWindow :=
  match Fullscreen.run Fullscreen.MainWindow_init stream with
  | Some (m, _) => m
  | None => Fullscreen.MainWindow_init
  end.

Definition peaks (history : list (list Py.sample)) : list (option Q) :=
  map (fun d => Py.max (map snd d)) history.

(** Four accepted events with peaks 10, 20, 30 and 40, in arrival order. *)
Definition four_events : list (list Py.sample) :=
  [pulse 2 10; pulse 4 20; pulse 6 30; pulse 8 40].

(** The history of each application after a sequence of accepted events. *)
Definition fs_add_all (events : list (list Py.sample))
    : Fullscreen.PastWaveformsWidget :=
  fold_left (fun w d => Fullscreen.add_new_waveform d w) events
    Fullscreen.PastWaveformsWidget_init.

Definition pm_show_all (events : list (list Py.sample))
    : Punching.MountainDisplayWindow :=
  fold_left (fun w d => Punching.show_mountain d (Punching.shown_count w + 1) w)
    events Punching.MountainDisplayWindow_init.

(** "A first sample [(t, f)] begins no candidate event." *)
Definition first_sample_starts_nothing (t f : Q) : Prop :=
  forall w detected,
    Punching.update_data t f Punching.init_data = Some (w, detected) ->
    Punching.in_mountain w = false.

(** "On the sample [s] the raw update of the maximum is emitted before
    anything the detector emits for [s]." *)
Definition raw_update_first (m : Fullscreen.MainWindow) (s : Py.sample) : Prop :=
  exists m' rest,
    Fullscreen.data_received m s =
    Some (m', Fullscreen.max_value_updated (fst s) (snd s) [] :: rest).

(** The score widget after [update_score] on each of [forces], in order. *)
Fixpoint submit_all (w : Punching.PunchingScoreWidget) (forces : list Q)
    : option Punching.PunchingScoreWidget :=
  match forces with
  | [] => Some w
  | f :: r => w1 <- Punching.update_score f w ;; submit_all w1 r
  end.

(** What the high-score list holds once the scores [submitted] have been
    inserted. *)
Definition leaderboard_of (submitted : list Z)
    (w : Punching.PunchingScoreWidget) : Prop :=
  StronglySorted Z.ge (Punching.high_scores w) /\
  (List.length (Punching.high_scores w) <= 5)%nat /\
  incl (Punching.high_scores w) submitted /\
  (submitted = [] -> Punching.high_score_label w = 0%Z) /\
  (submitted <> [] ->
   exists best,
     hd_error (Punching.high_scores w) = Some best /\
     Punching.high_score_label w = best /\
     forall x, In x submitted -> (x <= best)%Z).

End Scenario.

(** ** The outcomes of the detectors *)

(** The outcomes of the full-screen [detect_mountain]. *)
Inductive fs_outcome (t f : Q) (w : Fullscreen.RealtimeDisplayWidget)
  : Fullscreen.RealtimeDisplayWidget -> list Fullscreen.signal -> Prop :=
| fs_start :
    Fullscreen.in_mountain w = false ->
    Window.prev_force (Fullscreen.data_buffer w) <= 0 -> 0 < f ->
    fs_outcome t f w
      {| Fullscreen.data_buffer := Fullscreen.data_buffer w;
         Fullscreen.current_mountain := [(t, f)];
         Fullscreen.in_mountain := true;
         Fullscreen.last_mountain_timestamp := Fullscreen.last_mountain_timestamp w;
         Fullscreen.status_label := Fullscreen.Detecting |} []
| fs_continue :
    Fullscreen.in_mountain w = true -> 0 < f ->
    fs_outcome t f w
      {| Fullscreen.data_buffer := Fullscreen.data_buffer w;
         Fullscreen.current_mountain := Fullscreen.current_mountain w ++ [(t, f)];
         Fullscreen.in_mountain := true;
         Fullscreen.last_mountain_timestamp := Fullscreen.last_mountain_timestamp w;
         Fullscreen.status_label := Fullscreen.status_label w |} []
| fs_accept (peak : Q) :
    Fullscreen.in_mountain w = true -> f <= 0 ->
    1.0 <= t - Fullscreen.last_mountain_timestamp w ->
    Py.max (map snd (Fullscreen.current_mountain w ++ [(t, f)])) = Some peak ->
    fs_outcome t f w
      {| Fullscreen.data_buffer := Fullscreen.data_buffer w;
         Fullscreen.current_mountain := Fullscreen.current_mountain w ++ [(t, f)];
         Fullscreen.in_mountain := false;
         Fullscreen.last_mountain_timestamp := t;
         Fullscreen.status_label := Fullscreen.Detected |}
      [Fullscreen.mountain_detected (Fullscreen.current_mountain w ++ [(t, f)]);
       Fullscreen.max_value_updated t peak
         (Fullscreen.current_mountain w ++ [(t, f)])]
| fs_ignore :
    Fullscreen.in_mountain w = true -> f <= 0 ->
    t - Fullscreen.last_mountain_timestamp w < 1.0 ->
    fs_outcome t f w
      {| Fullscreen.data_buffer := Fullscreen.data_buffer w;
         Fullscreen.current_mountain := Fullscreen.current_mountain w ++ [(t, f)];
         Fullscreen.in_mountain := false;
         Fullscreen.last_mountain_timestamp := Fullscreen.last_mountain_timestamp w;
         Fullscreen.status_label :=
           Fullscreen.Ignoring
             (1.0 - (t - Fullscreen.last_mountain_timestamp w)) |} []
| fs_idle :
    Fullscreen.in_mountain w = false ->
    (0 < Window.prev_force (Fullscreen.data_buffer w) \/ f <= 0) ->
    fs_outcome t f w w [].


(** The outcomes of the punching [detect_mountain]. *)
Inductive pm_outcome (t f : Q) (w : Punching.RealtimeDisplayWidget)
  : Punching.RealtimeDisplayWidget -> list (list Py.sample) -> Prop :=
| pm_start :
    Punching.in_mountain w = false ->
    Window.prev_force (Punching.data_buffer w) <= Punching.start_threshold ->
    Punching.start_threshold < f ->
    pm_outcome t f w
      {| Punching.data_buffer := Punching.data_buffer w;
         Punching.mountain_count := Punching.mountain_count w;
         Punching.current_mountain := [(t, f)];
         Punching.in_mountain := true;
         Punching.last_mountain_time := Punching.last_mountain_time w;
         Punching.score_widget := Punching.score_widget w;
         Punching.status_label := Punching.InPunch |} []
| pm_continue :
    Punching.in_mountain w = true -> Punching.continue_threshold < f ->
    pm_outcome t f w
      {| Punching.data_buffer := Punching.data_buffer w;
         Punching.mountain_count := Punching.mountain_count w;
         Punching.current_mountain := Punching.current_mountain w ++ [(t, f)];
         Punching.in_mountain := true;
         Punching.last_mountain_time := Punching.last_mountain_time w;
         Punching.score_widget := Punching.score_widget w;
         Punching.status_label := Punching.status_label w |} []
| pm_finish (max_force : Q) (scored : Punching.PunchingScoreWidget) :
    Punching.in_mountain w = true -> f <= Punching.continue_threshold ->
    Py.max (map snd (Punching.current_mountain w ++ [(t, f)])) = Some max_force ->
    Punching.update_score max_force (Punching.score_widget w) = Some scored ->
    pm_outcome t f w
      {| Punching.data_buffer := Punching.data_buffer w;
         Punching.mountain_count := (Punching.mountain_count w + 1)%Z;
         Punching.current_mountain := Punching.current_mountain w ++ [(t, f)];
         Punching.in_mountain := false;
         Punching.last_mountain_time := Punching.last_mountain_time w;
         Punching.score_widget := scored;
         Punching.status_label :=
           Punching.Completed (Punching.mountain_count w + 1) (Py.int max_force) |}
      [Punching.current_mountain w ++ [(t, f)]]
| pm_idle :
    Punching.in_mountain w = false ->
    (Punching.start_threshold < Window.prev_force (Punching.data_buffer w)
     \/ f <= Punching.start_threshold) ->
    pm_outcome t f w w [].

(** ** Whole runs: what the detectors emit *)

Module Trace.

(** The payloads of the [mountain_detected] emissions, in order. *)
Definition fs_events (sigs : list Fullscreen.signal) : list (list Py.sample) :=
  flat_map
    (fun s =>
       match s with
       | Fullscreen.mountain_detected d => [d]
       | Fullscreen.max_value_updated _ _ _ => []
       end)
    sigs.

(** An event of the full-screen detector: positive samples, then one
    closing sample at or below 0. *)
Definition fs_event_shape (d : list Py.sample) : Prop :=
  exists body t f,
    d = body ++ [(t, f)] /\
    body <> [] /\
    (forall s, In s body -> 0 < snd s) /\
    f <= 0.

(** An event of the punching detector: a first sample above 100, samples
    above 50, then one closing sample at or below 50. *)
Definition pm_event_shape (d : list Py.sample) : Prop :=
  exists first body t f,
    d = first :: body ++ [(t, f)] /\
    Punching.start_threshold < snd first /\
    (forall s, In s body -> Punching.continue_threshold < snd s) /\
    f <= Punching.continue_threshold.

(** [d] is a run of consecutive samples of [stream] that ends with the last
    sample of [stream] and begins at the start of the stream or right after
    a sample at or below [threshold]. *)
Definition closes (threshold : Q) (d stream : list Py.sample) : Prop :=
  exists pre,
    stream = pre ++ d /\
    (pre = [] \/ snd (last pre (0, 0)) <= threshold).

(** [d] is such a run somewhere in [stream]. *)
Definition segment_of (threshold : Q) (d stream : list Py.sample) : Prop :=
  exists before after,
    stream = before ++ after /\ closes threshold d before.

(** What the full-screen detector knows of the samples [seen] so far. *)
Definition fs_tracks (seen : list Py.sample)
    (w : Fullscreen.RealtimeDisplayWidget) : Prop :=
  (seen <> [] ->
   exists kept, Fullscreen.data_buffer w = kept ++ [last seen (0, 0)]) /\
  (seen = [] -> Fullscreen.data_buffer w = []) /\
  (Fullscreen.in_mountain w = true ->
   Fullscreen.current_mountain w <> [] /\
   (forall s, In s (Fullscreen.current_mountain w) -> 0 < snd s) /\
   closes 0 (Fullscreen.current_mountain w) seen).

Definition pm_tracks (seen : list Py.sample)
    (w : Punching.RealtimeDisplayWidget) : Prop :=
  (seen <> [] ->
   exists kept, Punching.data_buffer w = kept ++ [last seen (0, 0)]) /\
  (seen = [] -> Punching.data_buffer w = []) /\
  (Punching.in_mountain w = true ->
   exists first body,
     Punching.current_mountain w = first :: body /\
     Punching.start_threshold < snd first /\
     (forall s, In s body -> Punching.continue_threshold < snd s) /\
     closes Punching.start_threshold (Punching.current_mountain w) seen).

(** The timestamp of the sample that closed an event. *)
Definition closing_time (d : list Py.sample) : Q := fst (last d (0, 0)).

(** Each time of [times] is at least 1.0 s after the one before it, the
    first one at least 1.0 s after [reference]. *)
Fixpoint spaced (reference : Q) (times : list Q) : Prop :=
  match times with
  | [] => True
  | t :: r => 1.0 <= t - reference /\ spaced t r
  end.

End Trace.

(** ** The score shown for a force *)

Module Score.

(** The colour of the comment, read off the force itself. *)
Definition tier_of_force (max_force : Q) : string :=
  if Py.gtb 500 max_force then "gray"
  else if Py.gtb 1000 max_force then "blue"
  else if Py.gtb 2000 max_force then "orange"
  else if Py.gtb 3000 max_force then "red"
  else "gold".

End Score.

(** ** [update_plot] and [update_max_value] on binary64 floats *)

Module Binary64.

(** [x > y] on floats: false as soon as one of them is a NaN. *)
Definition gtb (x y : float) : bool := PrimFloat.ltb y x.

(** The rational number a finite float denotes. *)
Definition exact (x : float) : option Q :=
  match Prim2SF x with
  | S754_zero _ => Some 0
  | S754_finite s m e =>
      Some ((if s then - inject_Z (Zpos m) else inject_Z (Zpos m)) * 2 ^ e)
  | S754_infinity _ => None
  | S754_nan => None
  end.

(** *** The sliding window *)

(** The [while] loop of [update_plot]. *)
Fixpoint popleft_while (latest_time : float) (d : list (float * float))
    : list (float * float) :=
  match d with
  | [] => []
  | e :: r =>
      if gtb (latest_time - fst e)%float 5%float
      then popleft_while latest_time r
      else d
  end.

Definition update_plot (d : list (float * float)) : list (float * float) :=
  if (List.length d <? 2)%nat then d
  else popleft_while (fst (last d (0%float, 0%float))) d.

Definition append_and_evict (d : list (float * float)) (s : float * float)
    : list (float * float) :=
  update_plot (Py.deque_append 500 d s).

Fixpoint feed (d : list (float * float)) (stream : list (float * float))
    : list (float * float) :=
  match stream with
  | [] => d
  | s :: r => feed (append_and_evict d s) r
  end.


(** A stream whose second timestamp goes back in time. *)
Definition backwards : list (float * float) :=
  [(10%float, 0%float); (0%float, 0%float); (10%float, 0%float)].

(** *** [MaxValueWidget] *)

Record MaxValueWidget : Type := {
  max_force : float;
  max_timestamp : float;
  max_mountain_data : list (float * float)
}.

Definition init_data : MaxValueWidget :=
  {| max_force := 0%float; max_timestamp := 0%float; max_mountain_data := [] |}.

Definition update_max_value (timestamp force : float)
    (mountain_data : list (float * float)) (w : MaxValueWidget)
    : MaxValueWidget :=
  let w1 :=
    if gtb (timestamp - max_timestamp w)%float 10%float
    then {| max_force := 0%float; max_timestamp := max_timestamp w;
            max_mountain_data := [] |}
    else w in
  if gtb force (max_force w1)
  then {| max_force := force; max_timestamp := timestamp;
          max_mountain_data :=
            match mountain_data with
            | [] => max_mountain_data w1
            | _ :: _ => mountain_data
            end |}
  else w1.

(** The tracker holding the peak [peak], recorded at [t0]. *)
Definition tracking (peak t0 : float) : MaxValueWidget :=
  update_max_value t0 peak [] init_data.

(** The floats nearest to 0.3 and to 10.3. *)
Definition t_0_3 : float := 0x1.3333333333333p-2%float.
Definition t_10_3 : float := 0x1.499999999999ap+3%float.

(** "After the peak [peak] recorded at [t0], a query at [ts], that is an
    update with magnitude 0, returns a tracked peak of 0." *)
Definition decays_to_zero (peak t0 ts : float) : Prop :=
  max_force (update_max_value ts 0%float [] (tracking peak t0)) = 0%float.

End Binary64.
(** ** Facts about the Python primitives *)

Lemma gtb_true (x y : Q) : Py.gtb x y = true <-> y < x.
Proof.
  unfold Py.gtb. rewrite negb_true_iff. split; intro H.
  - apply Qnot_le_lt. intro C. apply Qle_bool_iff in C. congruence.
  - destruct (Qle_bool x y) eqn:E; [| reflexivity].
    apply Qle_bool_iff in E. lra.
Qed.

Lemma gtb_false (x y : Q) : Py.gtb x y = false <-> x <= y.
Proof.
  unfold Py.gtb. rewrite negb_false_iff. apply Qle_bool_iff.
Qed.

Lemma leb_true (x y : Q) : Py.leb x y = true <-> x <= y.
Proof. apply Qle_bool_iff. Qed.

Lemma leb_false (x y : Q) : Py.leb x y = false <-> y < x.
Proof.
  unfold Py.leb. split; intro H.
  - apply Qnot_le_lt. intro C. apply Qle_bool_iff in C. congruence.
  - destruct (Qle_bool x y) eqn:E; [| reflexivity].
    apply Qle_bool_iff in E. lra.
Qed.

Lemma geb_true (x y : Q) : Py.geb x y = true <-> y <= x.
Proof. apply Qle_bool_iff. Qed.

Lemma geb_false (x y : Q) : Py.geb x y = false <-> x < y.
Proof. unfold Py.geb. apply leb_false. Qed.

(** Turns the boolean tests found by case analysis into order facts. *)
Ltac order_facts :=
  repeat match goal with
  | H : Py.gtb _ _ = true |- _ => apply gtb_true in H
  | H : Py.gtb _ _ = false |- _ => apply gtb_false in H
  | H : Py.leb _ _ = true |- _ => apply leb_true in H
  | H : Py.leb _ _ = false |- _ => apply leb_false in H
  | H : Py.geb _ _ = true |- _ => apply geb_true in H
  | H : Py.geb _ _ = false |- _ => apply geb_false in H
  end.

Lemma max_from_lower (l : list Q) : forall m, m <= Py.max_from m l.
Proof.
  induction l as [| x r IH]; intro m; simpl.
  - lra.
  - destruct (Py.gtb x m) eqn:E; order_facts.
    + specialize (IH x). lra.
    + apply IH.
Qed.

Lemma max_from_upper (l : list Q) :
  forall m x, In x l -> x <= Py.max_from m l.
Proof.
  induction l as [| y r IH]; intros m x Hin; simpl in *.
  - contradiction.
  - destruct Hin as [-> | Hin].
    + destruct (Py.gtb x m) eqn:E; order_facts.
      * apply max_from_lower.
      * pose proof (max_from_lower r m). lra.
    + apply IH, Hin.
Qed.

Lemma max_from_member (l : list Q) :
  forall m, Py.max_from m l = m \/ In (Py.max_from m l) l.
Proof.
  induction l as [| y r IH]; intro m; simpl.
  - now left.
  - destruct (Py.gtb y m).
    + destruct (IH y) as [-> | H]; auto.
    + destruct (IH m) as [-> | H]; auto.
Qed.

(** [max] returns an item of the list that no item exceeds. *)
Lemma max_is_peak (samples : list Py.sample) (peak : Q) :
  Py.max (map snd samples) = Some peak -> Scenario.is_peak_of peak samples.
Proof.
  destruct samples as [| s r]; simpl; [discriminate |].
  intros [= <-]. split.
  - destruct (max_from_member (map snd r) (snd s)) as [-> | H]; simpl; auto.
  - intros x [<- | Hin].
    + apply max_from_lower.
    + apply max_from_upper, in_map, Hin.
Qed.

Lemma max_of_nonempty (l r : list Py.sample) (s : Py.sample) :
  exists peak, Py.max (map snd (l ++ s :: r)) = Some peak.
Proof.
  destruct l; simpl; eauto.
Qed.

(** ** The detectors, case by case *)

(** The full-screen detector never raises, and its result is one of the five
    outcomes above. *)
Lemma fs_detect_cases (t f : Q) (w : Fullscreen.RealtimeDisplayWidget) :
  exists w' sigs,
    Fullscreen.detect_mountain t f w = Some (w', sigs) /\ fs_outcome t f w w' sigs.
Proof.
  unfold Fullscreen.detect_mountain. cbv zeta.
  destruct (Fullscreen.in_mountain w) eqn:Hin; cbn [negb andb].
  - destruct (Py.gtb f 0) eqn:Hf; cbn [negb andb].
    + eexists _, _. split; [reflexivity |].
      order_facts. now apply fs_continue.
    + assert (Hle : Py.leb f 0 = true) by (order_facts; now apply leb_true).
      rewrite Hle.
      destruct (Py.geb (t - Fullscreen.last_mountain_timestamp w) 1.0) eqn:Hd.
      * destruct (max_of_nonempty (Fullscreen.current_mountain w) [] (t, f))
          as [peak Hpeak].
        rewrite Hpeak. cbn [Py.bind].
        eexists _, _. split; [reflexivity |].
        order_facts. now apply fs_accept.
      * eexists _, _. split; [reflexivity |].
        order_facts. now apply fs_ignore.
  - destruct (Py.leb (Window.prev_force (Fullscreen.data_buffer w)) 0) eqn:Hp;
      cbn [negb andb].
    + destruct (Py.gtb f 0) eqn:Hf.
      * eexists _, _. split; [reflexivity |].
        order_facts. now apply fs_start.
      * eexists _, _. split; [reflexivity |].
        order_facts. apply fs_idle; auto.
    + eexists _, _. split; [reflexivity |].
      order_facts. apply fs_idle; auto.
Qed.

Lemma fs_detect_inv (t f : Q) (w w' : Fullscreen.RealtimeDisplayWidget)
    (sigs : list Fullscreen.signal) :
  Fullscreen.detect_mountain t f w = Some (w', sigs) -> fs_outcome t f w w' sigs.
Proof.
  intro H. destruct (fs_detect_cases t f w) as (w1 & s1 & E & O).
  rewrite E in H. injection H as <- <-. exact O.
Qed.

(** [sort(reverse=True)] keeps every item. *)
Lemma insert_desc_perm (x : Z) (l : list Z) :
  Permutation (Py.insert_desc x l) (x :: l).
Proof.
  induction l as [| y r IH]; simpl.
  - apply Permutation_refl.
  - destruct (y <? x)%Z.
    + apply Permutation_refl.
    + eapply perm_trans; [apply perm_skip, IH | apply perm_swap].
Qed.

Lemma sort_reverse_perm (l : list Z) : Permutation (Py.sort_reverse l) l.
Proof.
  induction l as [| x r IH]; simpl.
  - apply perm_nil.
  - eapply perm_trans; [apply insert_desc_perm | apply perm_skip, IH].
Qed.

(** [update_high_score] never raises: the list it indexes holds the score
    just appended. *)
Lemma update_high_score_total (score : Z) (w : Punching.PunchingScoreWidget) :
  exists best,
    nth_error
      (firstn 5 (Py.sort_reverse (Punching.high_scores w ++ [score]))) 0
    = Some best /\
    Punching.update_high_score score w =
    Some {| Punching.score_label := Punching.score_label w;
            Punching.comment_color := Punching.comment_color w;
            Punching.high_scores :=
              firstn 5 (Py.sort_reverse (Punching.high_scores w ++ [score]));
            Punching.high_score_label := best |}.
Proof.
  unfold Punching.update_high_score.
  destruct (Py.sort_reverse (Punching.high_scores w ++ [score])) as [| b r] eqn:E.
  - pose proof (sort_reverse_perm (Punching.high_scores w ++ [score])) as P.
    rewrite E in P. apply Permutation_nil in P.
    now destruct (Punching.high_scores w).
  - exists b. split; reflexivity.
Qed.

Lemma update_score_total (max_force : Q) (w : Punching.PunchingScoreWidget) :
  exists scored,
    Punching.update_score max_force w = Some scored /\
    Punching.score_label scored = Py.int max_force.
Proof.
  unfold Punching.update_score.
  match goal with
  | |- context [Punching.update_high_score ?s ?v] =>
      destruct (update_high_score_total s v) as (best & _ & ->)
  end.
  eexists. split; reflexivity.
Qed.

(** The punching detector never raises, and its result is one of the four
    outcomes. *)
Lemma pm_detect_cases (t f : Q) (w : Punching.RealtimeDisplayWidget) :
  exists w' mountains,
    Punching.detect_mountain t f w = Some (w', mountains) /\
    pm_outcome t f w w' mountains.
Proof.
  unfold Punching.detect_mountain. cbv zeta.
  destruct (Punching.in_mountain w) eqn:Hin; cbn [negb andb].
  - destruct (Py.gtb f Punching.continue_threshold) eqn:Hf; cbn [negb andb].
    + eexists _, _. split; [reflexivity |].
      order_facts. now apply pm_continue.
    + assert (Hle : Py.leb f Punching.continue_threshold = true)
        by (order_facts; now apply leb_true).
      rewrite Hle.
      destruct (max_of_nonempty (Punching.current_mountain w) [] (t, f))
        as [peak Hpeak].
      destruct (update_score_total peak (Punching.score_widget w))
        as (scored & Hscored & _).
      destruct (Punching.current_mountain w ++ [(t, f)]) as [| s r] eqn:E.
      * now destruct (Punching.current_mountain w).
      * rewrite Hpeak. cbn [Py.bind]. rewrite Hscored. cbn [Py.bind].
        eexists _, _. split; [reflexivity |].
        order_facts. rewrite <- E.
        apply pm_finish; auto. now rewrite E.
  - destruct (Py.leb (Window.prev_force (Punching.data_buffer w))
                Punching.start_threshold) eqn:Hp; cbn [negb andb].
    + destruct (Py.gtb f Punching.start_threshold) eqn:Hf.
      * eexists _, _. split; [reflexivity |].
        order_facts. now apply pm_start.
      * eexists _, _. split; [reflexivity |].
        order_facts. apply pm_idle; auto.
    + eexists _, _. split; [reflexivity |].
      order_facts. apply pm_idle; auto.
Qed.

Lemma pm_detect_inv (t f : Q) (w w' : Punching.RealtimeDisplayWidget)
    (mountains : list (list Py.sample)) :
  Punching.detect_mountain t f w = Some (w', mountains) ->
  pm_outcome t f w w' mountains.
Proof.
  intro H. destruct (pm_detect_cases t f w) as (w1 & s1 & E & O).
  rewrite E in H. injection H as <- <-. exact O.
Qed.

(** ** C1: the recorded peak of an event *)

(** C1.  Whenever a sample finalizes an event that is accepted, the peak
    recorded for it is the maximum of the forces of the event's samples, the
    closing sample at or below the threshold included.  In
    [fullscreen_grf.py] the peak is the force carried by the
    [max_value_updated] signal emitted with the event; in
    [punchingmachine.py] it is [max_force], whose integer part becomes the
    score shown. *)
Theorem C1_peak_is_maximum :
  (forall t f w w' sigs tp peak data,
      Fullscreen.detect_mountain t f w = Some (w', sigs) ->
      In (Fullscreen.max_value_updated tp peak data) sigs ->
      sigs = [Fullscreen.mountain_detected data;
              Fullscreen.max_value_updated t peak data] /\
      data = Fullscreen.current_mountain w ++ [(t, f)] /\
      f <= 0 /\
      Scenario.is_peak_of peak data) /\
  (forall t f w w' mountains data,
      Punching.detect_mountain t f w = Some (w', mountains) ->
      In data mountains ->
      exists max_force,
        mountains = [data] /\
        data = Punching.current_mountain w ++ [(t, f)] /\
        f <= Punching.continue_threshold /\
        Scenario.is_peak_of max_force data /\
        Punching.score_label (Punching.score_widget w') = Py.int max_force /\
        Punching.status_label w' =
          Punching.Completed (Punching.mountain_count w') (Py.int max_force)).
Proof.
  split.
  - intros t f w w' sigs tp peak data Hstep Hin.
    apply fs_detect_inv in Hstep.
    destruct Hstep as [| | p Hm Hf Hd Hp | |]; try contradiction.
    destruct Hin as [Hin | [Hin | []]]; [discriminate |].
    injection Hin as <- <- <-.
    repeat split; auto; now apply max_is_peak.
  - intros t f w w' mountains data Hstep Hin.
    apply pm_detect_inv in Hstep.
    destruct Hstep as [| | p scored Hm Hf Hp Hs |]; try contradiction.
    destruct Hin as [<- | []].
    exists p. simpl.
    destruct (update_score_total p (Punching.score_widget w))
      as (scored' & E & Hlabel).
    rewrite E in Hs. injection Hs as <-.
    repeat split; auto; now apply max_is_peak.
Qed.

Lemma C1_peak_is_maximum_witness :
  Scenario.is_peak_of 10 [(2, 10); (2.1, 0)] /\
  exists max_force,
    Scenario.is_peak_of max_force [(0.2, 150); (0.3, 80); (0.4, 0)] /\
    Py.int max_force = 150%Z.
Proof.
  destruct C1_peak_is_maximum as [Hfs Hpm]. split.
  - refine (proj2 (proj2 (proj2
      (Hfs 2.1 0 Scenario.fs_in_pulse _ _ 2.1 10 [(2, 10); (2.1, 0)] _ _)))).
    + vm_compute. reflexivity.
    + right. left. reflexivity.
  - destruct (Hpm 0.4 0 Scenario.pm_in_pulse _ _
                [(0.2, 150); (0.3, 80); (0.4, 0)] eq_refl (or_introl eq_refl))
      as (max_force & _ & _ & _ & Hpeak & Hscore & _).
    exists max_force. split; [exact Hpeak |].
    rewrite <- Hscore. reflexivity.
Defined.

(** ** C2: the detection scenario *)

(** On the scenario the punching application emits one event. *)
Lemma detection_run :
  exists m,
    Punching.run Punching.MainWindow_init Scenario.detection =
      Some (m, [[(0.2, 150); (0.3, 80); (0.4, 0)]]) /\
    Punching.mountain_count (Punching.realtime_widget m) = 1%Z /\
    Punching.score_label (Punching.score_widget (Punching.realtime_widget m))
      = 150%Z /\
    Punching.past_mountains (Punching.mountain_window m) =
      [[(0.2, 150); (0.3, 80); (0.4, 0)]].
Proof.
  eexists. split; [vm_compute; reflexivity |]. repeat split.
Qed.

(** C2, as stated, fails: the event does not start at 0.1.  The sample
    (0.1, 50) does not exceed 100; the candidate is begun by (0.2, 150). *)
Lemma C2_detection_scenario_counterexample :
  ~ Scenario.detection_yields 0.1 0.4 150.
Proof.
  intros (m & data & p & Hrun & Hstart & _).
  destruct detection_run as (m' & E & _).
  rewrite E in Hrun. injection Hrun as _ <-.
  simpl in Hstart. vm_compute in Hstart. discriminate.
Qed.

(** C2, amended.  With thresholds 100 and 50, the samples
    (0,0), (0.1,50), (0.2,150), (0.3,80), (0.4,0) fed to the initial
    detector produce exactly one event; it holds the samples of timestamps
    0.2, 0.3 and 0.4, so it spans 0.2 through 0.4, and its peak is 150. *)
Theorem C2_detection_scenario :
  Scenario.detection_yields 0.2 0.4 150 /\
  exists m,
    Punching.run Punching.MainWindow_init Scenario.detection =
      Some (m, [[(0.2, 150); (0.3, 80); (0.4, 0)]]) /\
    Punching.status_label (Punching.realtime_widget m) = Punching.Completed 1 150.
Proof.
  split.
  - destruct detection_run as (m & E & _).
    exists m, [(0.2, 150); (0.3, 80); (0.4, 0)], 150.
    split; [exact E |]. repeat split; reflexivity.
  - eexists. split; vm_compute; reflexivity.
Qed.

(** ** The full-screen application, one sample at a time *)

Lemma fs_update_data_cases (t f : Q) (w : Fullscreen.RealtimeDisplayWidget) :
  exists w1 detected,
    fs_outcome t f
      (Fullscreen.with_buffer
         (Py.deque_append 500 (Fullscreen.data_buffer w) (t, f)) w)
      w1 detected /\
    Fullscreen.update_data t f w =
      Some (Fullscreen.with_buffer
              (Window.update_plot (Fullscreen.data_buffer w1)) w1,
            detected ++ [Fullscreen.max_value_updated t f []]).
Proof.
  unfold Fullscreen.update_data. cbv zeta.
  match goal with
  | |- context [Fullscreen.detect_mountain t f ?v] =>
      destruct (fs_detect_cases t f v) as (w1 & detected & E & O)
  end.
  exists w1, detected. split; [exact O |].
  rewrite E. reflexivity.
Qed.

Lemma fs_slots_keep_realtime (sigs : list Fullscreen.signal) :
  forall m,
    Fullscreen.realtime_widget (fold_left Fullscreen.slot sigs m) =
    Fullscreen.realtime_widget m.
Proof.
  induction sigs as [| s r IH]; intro m; simpl; [reflexivity |].
  rewrite IH. now destruct s.
Qed.

(** What one delivered sample does to the three widgets. *)
Lemma fs_data_received_cases (m : Fullscreen.MainWindow) (s : Py.sample) :
  exists w1 detected,
    fs_outcome (fst s) (snd s)
      (Fullscreen.with_buffer
         (Py.deque_append 500
            (Fullscreen.data_buffer (Fullscreen.realtime_widget m))
            (fst s, snd s))
         (Fullscreen.realtime_widget m))
      w1 detected /\
    Fullscreen.data_received m s =
      Some (fold_left Fullscreen.slot
              (detected ++ [Fullscreen.max_value_updated (fst s) (snd s) []])
              {| Fullscreen.max_value_widget := Fullscreen.max_value_widget m;
                 Fullscreen.past_waveforms_widget :=
                   Fullscreen.past_waveforms_widget m;
                 Fullscreen.realtime_widget :=
                   Fullscreen.with_buffer
                     (Window.update_plot (Fullscreen.data_buffer w1)) w1 |},
            detected ++ [Fullscreen.max_value_updated (fst s) (snd s) []]).
Proof.
  unfold Fullscreen.data_received.
  destruct (fs_update_data_cases (fst s) (snd s) (Fullscreen.realtime_widget m))
    as (w1 & detected & O & E).
  exists w1, detected. split; [exact O |].
  rewrite E. reflexivity.
Qed.

(** A sample that accepts no event leaves the debounce reference and the
    history as they were. *)
Lemma fs_quiet_step (m m' : Fullscreen.MainWindow) (s : Py.sample)
    (sigs : list Fullscreen.signal) :
  Fullscreen.data_received m s = Some (m', sigs) ->
  (forall d, ~ In (Fullscreen.mountain_detected d) sigs) ->
  Fullscreen.last_mountain_timestamp (Fullscreen.realtime_widget m') =
    Fullscreen.last_mountain_timestamp (Fullscreen.realtime_widget m) /\
  Fullscreen.past_waveforms_widget m' = Fullscreen.past_waveforms_widget m.
Proof.
  intros Hstep Hquiet.
  destruct (fs_data_received_cases m s) as (w1 & detected & O & E).
  rewrite E in Hstep. injection Hstep as <- <-.
  rewrite fs_slots_keep_realtime.
  destruct O; simpl; auto.
  exfalso. eapply Hquiet. simpl. left. reflexivity.
Qed.

Lemma fs_quiet_run (stream : list Py.sample) :
  forall m m' sigs,
    Fullscreen.run m stream = Some (m', sigs) ->
    (forall d, ~ In (Fullscreen.mountain_detected d) sigs) ->
    Fullscreen.last_mountain_timestamp (Fullscreen.realtime_widget m') =
      Fullscreen.last_mountain_timestamp (Fullscreen.realtime_widget m) /\
    Fullscreen.past_waveforms_widget m' = Fullscreen.past_waveforms_widget m.
Proof.
  induction stream as [| s r IH]; intros m m' sigs Hrun Hquiet; simpl in Hrun.
  - injection Hrun as <- <-. auto.
  - destruct (Fullscreen.data_received m s) as [[m1 sig1] |] eqn:E1;
      [| discriminate].
    cbn [Py.bind] in Hrun.
    destruct (Fullscreen.run m1 r) as [[m2 sig2] |] eqn:E2; [| discriminate].
    cbn [Py.bind] in Hrun. injection Hrun as <- <-.
    destruct (fs_quiet_step _ _ _ _ E1) as [H1 H2].
    { intros d Hd. apply (Hquiet d), in_or_app. now left. }
    destruct (IH _ _ _ E2) as [H3 H4].
    { intros d Hd. apply (Hquiet d), in_or_app. now right. }
    split; congruence.
Qed.

(** A sample that accepts an event becomes the debounce reference. *)
Lemma fs_accepting_step (m m' : Fullscreen.MainWindow) (s : Py.sample)
    (sigs : list Fullscreen.signal) (d : list Py.sample) :
  Fullscreen.data_received m s = Some (m', sigs) ->
  In (Fullscreen.mountain_detected d) sigs ->
  Fullscreen.last_mountain_timestamp (Fullscreen.realtime_widget m') = fst s.
Proof.
  intros Hstep Hin.
  destruct (fs_data_received_cases m s) as (w1 & detected & O & E).
  rewrite E in Hstep. injection Hstep as <- <-.
  rewrite fs_slots_keep_realtime.
  destruct O; simpl in *; auto;
    repeat match goal with
    | H : _ \/ _ |- _ => destruct H
    | H : False |- _ => contradiction
    | H : _ = Fullscreen.mountain_detected _ |- _ => discriminate H
    end.
Qed.

(** The buffer of the full-screen widget follows [Window.append_and_evict]. *)
Lemma fs_buffer_step (m m' : Fullscreen.MainWindow) (s : Py.sample)
    (sigs : list Fullscreen.signal) :
  Fullscreen.data_received m s = Some (m', sigs) ->
  Fullscreen.data_buffer (Fullscreen.realtime_widget m') =
  Window.append_and_evict
    (Fullscreen.data_buffer (Fullscreen.realtime_widget m)) s.
Proof.
  intro Hstep.
  destruct (fs_data_received_cases m s) as (w1 & detected & O & E).
  rewrite E in Hstep. injection Hstep as <- <-.
  rewrite fs_slots_keep_realtime. unfold Window.append_and_evict.
  destruct s as [t f]. destruct O; reflexivity.
Qed.

(** ** The punching application, one sample at a time *)

Lemma pm_slots_keep_realtime (detected : list (list Py.sample)) :
  forall m,
    Punching.realtime_widget
      (fold_left Punching.on_mountain_detected detected m) =
    Punching.realtime_widget m.
Proof.
  induction detected as [| d r IH]; intro m; simpl; [reflexivity |].
  now rewrite IH.
Qed.

Lemma pm_data_received_cases (m : Punching.MainWindow) (s : Py.sample) :
  exists w1 detected,
    pm_outcome (fst s) (snd s)
      (Punching.with_buffer
         (Py.deque_append 500
            (Punching.data_buffer (Punching.realtime_widget m))
            (fst s, snd s))
         (Punching.realtime_widget m))
      w1 detected /\
    Punching.data_received m s =
      Some (fold_left Punching.on_mountain_detected detected
              {| Punching.realtime_widget :=
                   Punching.with_buffer
                     (Window.update_plot (Punching.data_buffer w1)) w1;
                 Punching.mountain_window := Punching.mountain_window m;
                 Punching.data_receiver := Punching.data_receiver m |},
            detected).
Proof.
  unfold Punching.data_received, Punching.update_data. cbv zeta.
  match goal with
  | |- context [Punching.detect_mountain (fst s) (snd s) ?v] =>
      destruct (pm_detect_cases (fst s) (snd s) v) as (w1 & detected & E & O)
  end.
  exists w1, detected. split; [exact O |].
  rewrite E. reflexivity.
Qed.

Lemma pm_buffer_step (m m' : Punching.MainWindow) (s : Py.sample)
    (detected : list (list Py.sample)) :
  Punching.data_received m s = Some (m', detected) ->
  Punching.data_buffer (Punching.realtime_widget m') =
  Window.append_and_evict
    (Punching.data_buffer (Punching.realtime_widget m)) s.
Proof.
  intro Hstep.
  destruct (pm_data_received_cases m s) as (w1 & det & O & E).
  rewrite E in Hstep. injection Hstep as <- <-.
  rewrite pm_slots_keep_realtime. unfold Window.append_and_evict.
  destruct s as [t f]. destruct O; reflexivity.
Qed.

(** ** C3: the debounce *)

(** C3, as stated, fails on [punchingmachine.py], whose detector has no
    debounce ([last_mountain_time] is set to 0 and never read): two pulses
    whose closing samples are 0.5 s apart are both accepted, and the list of
    past mountains grows to two. *)
Lemma C3_debounce_counterexample :
  exists m e1 e2,
    Punching.run Punching.MainWindow_init (Scenario.two_pulses 150 200) =
      Some (m, [e1; e2]) /\
    fst (last e2 (0, 0)) - fst (last e1 (0, 0)) < 1.0 /\
    List.length (Punching.past_mountains (Punching.mountain_window m)) = 2%nat /\
    Punching.mountain_count (Punching.realtime_widget m) = 2%Z.
Proof.
  eexists _, _, _. split; [vm_compute; reflexivity |].
  split; [vm_compute; reflexivity |]. split; reflexivity.
Qed.

(** [show_mountain] always ends the list of past mountains with the new
    one. *)
Lemma show_mountain_appends (d : list Py.sample) (c : Z)
    (w : Punching.MountainDisplayWindow) :
  exists older,
    Punching.past_mountains (Punching.show_mountain d c w) = older ++ [d].
Proof.
  unfold Punching.show_mountain. cbn [Punching.past_mountains].
  destruct (Punching.past_mountains w) as [| x older].
  - now exists [].
  - destruct (3 <? List.length ((x :: older) ++ [d]))%nat.
    + now exists older.
    + now exists (x :: older).
Qed.

(** Closing a punch always emits it: the punching detector has no test on
    the time since the last punch. *)
Lemma pm_closing_always_emits (m : Punching.MainWindow) (s : Py.sample) :
  Punching.in_mountain (Punching.realtime_widget m) = true ->
  snd s <= Punching.continue_threshold ->
  exists m' older,
    Punching.data_received m s =
      Some (m', [Punching.current_mountain (Punching.realtime_widget m) ++ [s]]) /\
    Punching.mountain_count (Punching.realtime_widget m') =
      (Punching.mountain_count (Punching.realtime_widget m) + 1)%Z /\
    Punching.past_mountains (Punching.mountain_window m') =
      older ++ [Punching.current_mountain (Punching.realtime_widget m) ++ [s]].
Proof.
  intros Hactive Hclose.
  destruct (pm_data_received_cases m s) as (w1 & detected & O & E).
  rewrite E. clear E. destruct s as [t f]. cbn [fst snd] in *.
  destruct O as [Hm Hp Hf | Hm Hf | p scored Hm Hf Hp Hs | Hm Hor];
    simpl in Hm; try congruence; try lra.
  cbn [fold_left]. unfold Punching.on_mountain_detected.
  match goal with
  | |- context [Punching.show_mountain ?d ?c ?w] =>
      destruct (show_mountain_appends d c w) as [older Hold]
  end.
  eexists _, older. split; [reflexivity |]. split; [reflexivity |].
  cbn [Punching.mountain_window]. simpl in Hold. exact Hold.
Qed.

(** C3, amended.  In [fullscreen_grf.py], for every stream: when a sample
    [s1] finalizes an event that is accepted, no event is accepted during
    the samples [between], and a later sample [s2] finalizes a candidate
    less than 1.0 s after [s1], then the second candidate is ignored: no
    [mountain_detected] is emitted for it, the status shows the ignore
    message with the remaining time, the past waveforms are unchanged and
    [s1] stays the reference of the debounce.  [punchingmachine.py] has no
    debounce: from every state, a sample at or below 50 received inside a
    mountain finalizes the candidate and the candidate is accepted, whatever
    the time since the last one: it is emitted, counted and appended to the
    past mountains.  (Forces are finite here: on a mountain that holds an
    infinite force [int] raises before the event is emitted.) *)
Theorem C3_debounce :
  (forall m0 s1 m1 sig1 d1 between m2 sig2 s2,
      Fullscreen.data_received m0 s1 = Some (m1, sig1) ->
      In (Fullscreen.mountain_detected d1) sig1 ->
      Fullscreen.run m1 between = Some (m2, sig2) ->
      (forall d, ~ In (Fullscreen.mountain_detected d) sig2) ->
      Fullscreen.in_mountain (Fullscreen.realtime_widget m2) = true ->
      snd s2 <= 0 ->
      fst s2 - fst s1 < 1.0 ->
      exists m3,
        Fullscreen.data_received m2 s2 =
          Some (m3, [Fullscreen.max_value_updated (fst s2) (snd s2) []]) /\
        Fullscreen.status_label (Fullscreen.realtime_widget m3) =
          Fullscreen.Ignoring (1.0 - (fst s2 - fst s1)) /\
        Fullscreen.past_waveforms_widget m3 = Fullscreen.past_waveforms_widget m2 /\
        Fullscreen.last_mountain_timestamp (Fullscreen.realtime_widget m3) = fst s1) /\
  (forall m s,
      Punching.in_mountain (Punching.realtime_widget m) = true ->
      snd s <= Punching.continue_threshold ->
      exists m' older,
        Punching.data_received m s =
          Some (m', [Punching.current_mountain (Punching.realtime_widget m) ++ [s]]) /\
        Punching.mountain_count (Punching.realtime_widget m') =
          (Punching.mountain_count (Punching.realtime_widget m) + 1)%Z /\
        Punching.past_mountains (Punching.mountain_window m') =
          older ++ [Punching.current_mountain (Punching.realtime_widget m) ++ [s]]).
Proof.
  split; [| exact pm_closing_always_emits].
  intros m0 s1 m1 sig1 d1 between m2 sig2 s2 Hfirst Haccepted Hrun Hquiet
    Hactive Hclose Hgap.
  pose proof (fs_accepting_step _ _ _ _ _ Hfirst Haccepted) as Href.
  destruct (fs_quiet_run _ _ _ _ Hrun Hquiet) as [Hkeep _].
  rewrite Href in Hkeep.
  destruct (fs_data_received_cases m2 s2) as (w1 & detected & O & E).
  rewrite E. clear E.
  destruct O as [Hm _ Hf | Hm Hf | p Hm Hf Hd Hp | Hm Hf Hd | Hm Hor];
    simpl in Hm; try congruence; try lra.
  - simpl in Hd. rewrite Hkeep in Hd. lra.
  - eexists. simpl. rewrite Hkeep. repeat split.
Qed.

Lemma C3_debounce_witness :
  exists m3,
    Fullscreen.data_received (Scenario.fs_after [(0, 0); (2, 10); (2.1, 0); (2.5, 20)])
      (2.6, 0) =
      Some (m3, [Fullscreen.max_value_updated 2.6 0 []]) /\
    Fullscreen.status_label (Fullscreen.realtime_widget m3) =
      Fullscreen.Ignoring (1.0 - (2.6 - 2.1)) /\
    List.length (Fullscreen.past_mountains (Fullscreen.past_waveforms_widget m3))
      = 1%nat.
Proof.
  destruct (proj1 C3_debounce
              (Scenario.fs_after [(0, 0); (2, 10)]) (2.1, 0)
              (Scenario.fs_after [(0, 0); (2, 10); (2.1, 0)])
              [Fullscreen.mountain_detected [(2, 10); (2.1, 0)];
               Fullscreen.max_value_updated 2.1 10 [(2, 10); (2.1, 0)];
               Fullscreen.max_value_updated 2.1 0 []]
              [(2, 10); (2.1, 0)]
              [(2.5, 20)]
              (Scenario.fs_after [(0, 0); (2, 10); (2.1, 0); (2.5, 20)])
              [Fullscreen.max_value_updated 2.5 20 []]
              (2.6, 0))
    as (m3 & Hstep & Hstatus & Hhistory & _).
  - vm_compute. reflexivity.
  - left. reflexivity.
  - vm_compute. reflexivity.
  - intros d [H | []]. discriminate H.
  - vm_compute. reflexivity.
  - simpl. lra.
  - simpl. lra.
  - exists m3. split; [exact Hstep |]. split; [exact Hstatus |].
    rewrite Hhistory. vm_compute. reflexivity.
Defined.

(** ** The sliding window: eviction from the front *)

(** The eviction loop returns a suffix of the buffer. *)
Lemma popleft_while_suffix (latest : Q) (d : list Py.sample) :
  exists evicted, evicted ++ Window.popleft_while latest d = d.
Proof.
  induction d as [| e r IH]; simpl.
  - now exists [].
  - destruct (Py.gtb (latest - fst e) 5.0).
    + destruct IH as [ev Hev]. exists (e :: ev). simpl. now rewrite Hev.
    + now exists [].
Qed.

Lemma update_plot_suffix (d : list Py.sample) :
  exists evicted, evicted ++ Window.update_plot d = d.
Proof.
  unfold Window.update_plot. destruct (List.length d <? 2)%nat.
  - now exists [].
  - apply popleft_while_suffix.
Qed.

Lemma deque_append_suffix (d : list Py.sample) (s : Py.sample) :
  exists dropped kept,
    Py.deque_append 500 d s = kept ++ [s] /\ dropped ++ kept = d.
Proof.
  unfold Py.deque_append. destruct (500 <=? List.length d)%nat.
  - destruct d as [| x r]; [now exists [], [] | now exists [x], r].
  - now exists [], d.
Qed.

Lemma append_and_evict_suffix (d : list Py.sample) (s : Py.sample) :
  exists evicted, evicted ++ Window.append_and_evict d s = d ++ [s].
Proof.
  unfold Window.append_and_evict.
  destruct (deque_append_suffix d s) as (dropped & kept & -> & <-).
  destruct (update_plot_suffix (kept ++ [s])) as [ev Hev].
  exists (dropped ++ ev). now rewrite <- !app_assoc, Hev.
Qed.

Lemma feed_suffix (stream : list Py.sample) :
  forall d, exists evicted, evicted ++ Window.feed d stream = d ++ stream.
Proof.
  induction stream as [| s r IH]; intro d; simpl.
  - exists []. now rewrite app_nil_r.
  - destruct (IH (Window.append_and_evict d s)) as [ev1 H1].
    destruct (append_and_evict_suffix d s) as [ev2 H2].
    exists (ev2 ++ ev1).
    rewrite <- app_assoc, H1, app_assoc, H2, <- app_assoc. reflexivity.
Qed.

Lemma feed_app (a b : list Py.sample) :
  forall d, Window.feed d (a ++ b) = Window.feed (Window.feed d a) b.
Proof.
  induction a as [| s a IH]; intro d; simpl; [reflexivity | apply IH].
Qed.

(** ** C4: the sliding window, on binary64 floats *)






(** ** C5: the history of past mountains *)

Lemma firstn_3_cons_firstn {A} (x : A) (l : list A) :
  firstn 3 (x :: firstn 3 l) = firstn 3 (x :: l).
Proof.
  destruct l as [| a [| b [| c l]]]; reflexivity.
Qed.

(** [add_new_waveform] keeps the three newest events, newest first. *)
Lemma fs_add_all_newest_first (events : list (list Py.sample)) :
  (forall d, In d events -> d <> []) ->
  Fullscreen.past_mountains (Scenario.fs_add_all events) =
  firstn 3 (rev events).
Proof.
  unfold Scenario.fs_add_all.
  induction events as [| d events IH] using rev_ind; intro Hne.
  - reflexivity.
  - rewrite fold_left_app, rev_app_distr. cbn [fold_left rev app].
    assert (Hd : d <> []) by (apply Hne, in_or_app; right; now left).
    destruct d as [| s r]; [congruence |].
    unfold Fullscreen.add_new_waveform at 1. cbn [Fullscreen.past_mountains].
    rewrite IH by (intros x Hx; apply Hne, in_or_app; now left).
    apply (firstn_3_cons_firstn (s :: r)).
Qed.

(** [show_mountain] keeps the same three events, oldest first. *)
Lemma pm_show_all_oldest_first (events : list (list Py.sample)) :
  Punching.past_mountains (Scenario.pm_show_all events) =
  rev (firstn 3 (rev events)).
Proof.
  unfold Scenario.pm_show_all.
  induction events as [| d events IH] using rev_ind.
  - reflexivity.
  - rewrite fold_left_app, rev_app_distr. cbn [fold_left rev app].
    unfold Punching.show_mountain at 1. cbn [Punching.past_mountains].
    rewrite IH.
    destruct (rev events) as [| a [| b [| c l]]]; reflexivity.
Qed.

(** C5, as stated, fails on [punchingmachine.py]: [show_mountain] appends at
    the back and pops the front, so after the four events the list reads
    20, 30, 40. *)
Lemma C5_history_counterexample :
  Scenario.peaks
    (Punching.past_mountains (Scenario.pm_show_all Scenario.four_events))
  <> [Some 40; Some 30; Some 20].
Proof.
  vm_compute. discriminate.
Qed.

(** C5, amended.  In [fullscreen_grf.py] an accepted event is inserted at
    the front of the past mountains and the list is cut to three, so the
    list reads newest first: after four accepted pulses with peaks 10, 20,
    30, 40 it holds the events of peaks 40, 30, 20, in that order, whether
    the events are added one by one or detected from a stream.  In
    [punchingmachine.py] an event is appended at the back and the oldest is
    popped beyond three: the same three events are kept, oldest first
    (20, 30, 40). *)
Theorem C5_history :
  (forall events,
      (forall d, In d events -> d <> []) ->
      Fullscreen.past_mountains (Scenario.fs_add_all events) =
      firstn 3 (rev events)) /\
  Scenario.peaks
    (Fullscreen.past_mountains (Scenario.fs_add_all Scenario.four_events))
    = [Some 40; Some 30; Some 20] /\
  Scenario.peaks
    (Fullscreen.past_mountains
       (Fullscreen.past_waveforms_widget
          (Scenario.fs_after Scenario.four_pulses)))
    = [Some 40; Some 30; Some 20] /\
  (forall events,
      Punching.past_mountains (Scenario.pm_show_all events) =
      rev (firstn 3 (rev events))) /\
  Scenario.peaks
    (Punching.past_mountains (Scenario.pm_show_all Scenario.four_events))
    = [Some 20; Some 30; Some 40].
Proof.
  split; [exact fs_add_all_newest_first |].
  split; [vm_compute; reflexivity |].
  split; [vm_compute; reflexivity |].
  split; [exact pm_show_all_oldest_first |].
  vm_compute. reflexivity.
Qed.

Lemma C5_history_witness :
  Fullscreen.past_mountains (Scenario.fs_add_all Scenario.four_events) =
  [Scenario.pulse 8 40; Scenario.pulse 6 30; Scenario.pulse 4 20].
Proof.
  destruct C5_history as [Hfs _].
  rewrite (Hfs Scenario.four_events).
  - reflexivity.
  - intros d Hd. simpl in Hd.
    destruct Hd as [<- | [<- | [<- | [<- | []]]]]; discriminate.
Defined.

(** ** The reset of the tracked maximum *)

(** The reset happens exactly when more than 10.0 s have elapsed since the
    peak was recorded. *)
Lemma reset_if_expired_cases (timestamp : Q) (w : Fullscreen.MaxValueWidget) :
  (10.0 < timestamp - Fullscreen.max_timestamp w /\
   Fullscreen.reset_if_expired timestamp w =
     {| Fullscreen.max_force := 0;
        Fullscreen.max_timestamp := Fullscreen.max_timestamp w;
        Fullscreen.max_mountain_data := [] |}) \/
  (timestamp - Fullscreen.max_timestamp w <= 10.0 /\
   Fullscreen.reset_if_expired timestamp w = w).
Proof.
  unfold Fullscreen.reset_if_expired.
  destruct (Py.gtb (timestamp - Fullscreen.max_timestamp w) 10.0) eqn:E;
    order_facts; auto.
Qed.

(** ** C6: the decay of the tracked maximum, on binary64 floats *)

(** C6, as stated, fails: the reset is decided on the rounded difference.
    With a peak of 100 recorded at 0.3, the float 10.3 lies more than 10.0
    after the float 0.3, but their difference rounds to 10.0: the query at
    10.3 does not reset and the tracked peak is still 100, not 0. *)
Lemma C6_decay_counterexample :
  (exists a b,
      Binary64.exact Binary64.t_10_3 = Some a /\
      Binary64.exact Binary64.t_0_3 = Some b /\
      10 < a - b) /\
  ~ Binary64.decays_to_zero 100%float Binary64.t_0_3 Binary64.t_10_3.
Proof.
  split.
  - eexists _, _. split; [vm_compute; reflexivity |].
    split; [vm_compute; reflexivity |]. vm_compute. reflexivity.
  - unfold Binary64.decays_to_zero. intro H.
    apply (f_equal (fun v => PrimFloat.ltb 0%float v)) in H.
    vm_compute in H. discriminate H.
Qed.

(** C6, amended.  Let the tracker hold a peak recorded at [t0], and let the
    elapsed time be the float difference [ts - t0] the code computes.  If
    it is above 10.0, an update at [ts] first resets the peak to 0 and then
    compares: the tracked peak becomes the incoming magnitude when that is
    above 0, and 0 otherwise.  If it is not (at most 10.0, or a NaN), an
    update whose magnitude is not above the peak leaves the peak and its
    timestamp as they are.  So the reset happens exactly when the rounded
    difference strictly exceeds 10.0, before the comparison: after a peak of
    100 at 0.3 a query at 10.3 still returns 100, and a query at the next
    float after 10.3 returns 0. *)
Theorem C6_decay :
  (forall (w : Binary64.MaxValueWidget) (ts m : float)
          (data : list (float * float)),
      (Binary64.gtb (ts - Binary64.max_timestamp w)%float 10%float = true ->
       Binary64.max_force (Binary64.update_max_value ts m data w) =
       (if Binary64.gtb m 0%float then m else 0%float)) /\
      (Binary64.gtb (ts - Binary64.max_timestamp w)%float 10%float = false ->
       Binary64.gtb m (Binary64.max_force w) = false ->
       Binary64.update_max_value ts m data w = w)) /\
  Binary64.max_force
    (Binary64.update_max_value Binary64.t_10_3 0%float []
       (Binary64.tracking 100%float Binary64.t_0_3)) = 100%float /\
  Binary64.max_force
    (Binary64.update_max_value (PrimFloat.next_up Binary64.t_10_3) 0%float []
       (Binary64.tracking 100%float Binary64.t_0_3)) = 0%float.
Proof.
  split; [| split; vm_compute; reflexivity].
  intros w ts m data. unfold Binary64.update_max_value. cbv zeta. split.
  - intro Hexpired. rewrite Hexpired. cbn [Binary64.max_force].
    now destruct (Binary64.gtb m 0%float).
  - intros Hkept Hlower. rewrite Hkept, Hlower. reflexivity.
Qed.

Lemma C6_decay_witness :
  Binary64.max_force
    (Binary64.update_max_value (PrimFloat.next_up Binary64.t_10_3) 50%float []
       (Binary64.tracking 100%float Binary64.t_0_3)) = 50%float /\
  Binary64.update_max_value Binary64.t_10_3 50%float []
    (Binary64.tracking 100%float Binary64.t_0_3)
  = Binary64.tracking 100%float Binary64.t_0_3.
Proof.
  split.
  - apply (proj1 (proj1 C6_decay (Binary64.tracking 100%float Binary64.t_0_3)
                    (PrimFloat.next_up Binary64.t_10_3) 50%float [])).
    vm_compute. reflexivity.
  - apply (proj2 (proj1 C6_decay (Binary64.tracking 100%float Binary64.t_0_3)
                    Binary64.t_10_3 50%float [])).
    + vm_compute. reflexivity.
    + vm_compute. reflexivity.
Defined.

(** ** C7: a first sample above the start threshold *)

Lemma first_sample_punching (t f : Q) :
  Punching.start_threshold < f ->
  Punching.update_data t f Punching.init_data =
    Some ({| Punching.data_buffer := [(t, f)];
             Punching.mountain_count := 0;
             Punching.current_mountain := [(t, f)];
             Punching.in_mountain := true;
             Punching.last_mountain_time := 0;
             Punching.score_widget := Punching.PunchingScoreWidget_init;
             Punching.status_label := Punching.InPunch |}, []).
Proof.
  intro Hf. apply gtb_true in Hf.
  unfold Punching.update_data, Punching.detect_mountain. cbv zeta.
  cbn [Punching.init_data Punching.with_buffer Punching.data_buffer
       Punching.in_mountain negb andb].
  change (Window.prev_force (Py.deque_append 500 [] (t, f))) with 0.
  change (Py.leb 0 Punching.start_threshold) with true.
  cbn [andb]. rewrite Hf. reflexivity.
Qed.

Lemma first_sample_fullscreen (t f : Q) :
  0 < f ->
  Fullscreen.update_data t f Fullscreen.init_data =
    Some ({| Fullscreen.data_buffer := [(t, f)];
             Fullscreen.current_mountain := [(t, f)];
             Fullscreen.in_mountain := true;
             Fullscreen.last_mountain_timestamp := 0;
             Fullscreen.status_label := Fullscreen.Detecting |},
          [Fullscreen.max_value_updated t f []]).
Proof.
  intro Hf. apply gtb_true in Hf.
  unfold Fullscreen.update_data, Fullscreen.detect_mountain. cbv zeta.
  cbn [Fullscreen.init_data Fullscreen.with_buffer Fullscreen.data_buffer
       Fullscreen.in_mountain negb andb].
  change (Window.prev_force (Py.deque_append 500 [] (t, f))) with 0.
  change (Py.leb 0 0) with true.
  cbn [andb]. rewrite Hf. reflexivity.
Qed.

(** C7, as stated, fails: with an empty history [prev_force] is 0, which is
    at or below the start threshold, so a first sample above the threshold
    satisfies the crossing rule.  The first sample (0, 150) puts the punching
    detector in a mountain. *)
Lemma C7_first_sample_counterexample :
  ~ Scenario.first_sample_starts_nothing 0 150.
Proof.
  intro H.
  assert (Hf : Punching.start_threshold < 150) by reflexivity.
  specialize (H _ _ (first_sample_punching 0 150 Hf)). discriminate H.
Qed.

(** C7, amended.  If the very first sample of a stream already exceeds the
    start threshold (100 in [punchingmachine.py], 0 in [fullscreen_grf.py]),
    the detector takes the previous force to be 0 and performs the
    IDLE-to-ACTIVE transition on that sample: a candidate event is begun
    with it, and nothing is emitted but, in the full-screen variant, the
    raw-sample update of the maximum. *)
Theorem C7_first_sample :
  forall t f,
    (Punching.start_threshold < f ->
     exists w,
       Punching.update_data t f Punching.init_data = Some (w, []) /\
       Punching.in_mountain w = true /\
       Punching.current_mountain w = [(t, f)] /\
       Punching.status_label w = Punching.InPunch) /\
    (0 < f ->
     exists w,
       Fullscreen.update_data t f Fullscreen.init_data =
         Some (w, [Fullscreen.max_value_updated t f []]) /\
       Fullscreen.in_mountain w = true /\
       Fullscreen.current_mountain w = [(t, f)] /\
       Fullscreen.status_label w = Fullscreen.Detecting).
Proof.
  intros t f. split; intro Hf.
  - eexists. split; [apply first_sample_punching, Hf |]. repeat split.
  - eexists. split; [apply first_sample_fullscreen, Hf |]. repeat split.
Qed.

Lemma C7_first_sample_witness :
  exists w,
    Punching.update_data 0 150 Punching.init_data = Some (w, []) /\
    Punching.in_mountain w = true /\
    Punching.current_mountain w = [(0, 150)] /\
    Punching.status_label w = Punching.InPunch.
Proof.
  apply (proj1 (C7_first_sample 0 150)). reflexivity.
Defined.

(** ** C9: the tracked maximum follows every raw sample *)

Lemma update_max_value_covers (t f : Q) (d : list Py.sample)
    (w : Fullscreen.MaxValueWidget) :
  f <= Fullscreen.max_force (Fullscreen.update_max_value t f d w).
Proof.
  unfold Fullscreen.update_max_value. cbv zeta.
  destruct (Py.gtb f (Fullscreen.max_force (Fullscreen.reset_if_expired t w)))
    eqn:E; order_facts; [simpl; lra | exact E].
Qed.

Lemma update_max_value_nonneg (t f : Q) (d : list Py.sample)
    (w : Fullscreen.MaxValueWidget) :
  0 <= Fullscreen.max_force w ->
  0 <= Fullscreen.max_force (Fullscreen.update_max_value t f d w).
Proof.
  intro Hw. unfold Fullscreen.update_max_value. cbv zeta.
  destruct (reset_if_expired_cases t w) as [[_ ->] | [_ ->]];
    match goal with
    | |- context [Py.gtb f ?x] => destruct (Py.gtb f x) eqn:E
    end; order_facts; simpl in *; lra.
Qed.

Lemma update_max_value_raises (t f : Q) (d : list Py.sample)
    (w : Fullscreen.MaxValueWidget) :
  0 <= Fullscreen.max_force w -> Fullscreen.max_force w < f ->
  Fullscreen.max_force (Fullscreen.update_max_value t f d w) = f /\
  Fullscreen.max_timestamp (Fullscreen.update_max_value t f d w) = t.
Proof.
  intros Hw Hf. unfold Fullscreen.update_max_value. cbv zeta.
  destruct (reset_if_expired_cases t w) as [[_ ->] | [_ ->]];
    match goal with
    | |- context [Py.gtb f ?x] => destruct (Py.gtb f x) eqn:E
    end; order_facts; simpl in *; try lra; auto.
Qed.

(** C9, as stated, fails on the order: [update_data] emits the raw update
    after [detect_mountain] has returned.  On the closing sample (2.1, 0) of
    an accepted pulse the signals are [mountain_detected], then
    [max_value_updated] with the peak, and only then the raw update. *)
Lemma C9_tracker_sees_every_sample_counterexample :
  ~ Scenario.raw_update_first (Scenario.fs_after [(0, 0); (2, 10)]) (2.1, 0).
Proof.
  intros (m' & rest & H). vm_compute in H. discriminate H.
Qed.

(** C9, amended.  In [fullscreen_grf.py] the maximum is updated on every raw
    sample, not only on accepted events: each delivered sample [(t, f)]
    ends, in the same [update_data] call, with the emission of
    [max_value_updated(t, f, [])], after [detect_mountain] has handled the
    sample and after whatever it emitted; on a closing sample the raw update
    thus follows the emissions of the finalized event.  A positive sample
    inside a pulse leaves the pulse open, so these samples reach the tracker
    before the pulse is finalized and the debounce decides on it.  After the
    sample the tracked maximum is at least [f], and it is [f], recorded at
    [t], when [f] exceeds the maximum tracked before.  A sample on which the
    status reads ignored emits nothing else and takes nothing back.  So a
    pulse that the debounce ignores has still raised the maximum: after an
    accepted pulse of peak 10 and, half a second later, an ignored pulse of
    peak 20, the status is ignored, the history holds one event and the
    tracked maximum is 20. *)
Theorem C9_tracker_sees_every_sample :
  (forall m s,
      0 <= Fullscreen.max_force (Fullscreen.max_value_widget m) ->
      exists m' accepted,
        Fullscreen.data_received m s =
          Some (m', accepted ++
                    [Fullscreen.max_value_updated (fst s) (snd s) []]) /\
        snd s <= Fullscreen.max_force (Fullscreen.max_value_widget m') /\
        0 <= Fullscreen.max_force (Fullscreen.max_value_widget m') /\
        (Fullscreen.max_force (Fullscreen.max_value_widget m) < snd s ->
         Fullscreen.max_force (Fullscreen.max_value_widget m') = snd s /\
         Fullscreen.max_timestamp (Fullscreen.max_value_widget m') = fst s) /\
        (accepted = [] ->
         Fullscreen.max_value_widget m' =
         Fullscreen.update_max_value (fst s) (snd s) []
           (Fullscreen.max_value_widget m)) /\
        (0 < snd s ->
         Fullscreen.in_mountain (Fullscreen.realtime_widget m) = true ->
         Fullscreen.in_mountain (Fullscreen.realtime_widget m') = true /\
         accepted = []) /\
        (forall r,
            Fullscreen.status_label (Fullscreen.realtime_widget m') =
              Fullscreen.Ignoring r ->
            accepted = [])) /\
  Fullscreen.status_label
    (Fullscreen.realtime_widget (Scenario.fs_after (Scenario.two_pulses 10 20)))
    = Fullscreen.Ignoring (1.0 - (2.5 + 0.1 - (2 + 0.1))) /\
  List.length
    (Fullscreen.past_mountains
       (Fullscreen.past_waveforms_widget
          (Scenario.fs_after (Scenario.two_pulses 10 20)))) = 1%nat /\
  Fullscreen.max_force
    (Fullscreen.max_value_widget (Scenario.fs_after (Scenario.two_pulses 10 20)))
    = 20.
Proof.
  split; [| repeat split].
  intros m s Hinv.
  destruct (fs_data_received_cases m s) as (w1 & detected & O & E).
  rewrite E. clear E. eexists _, detected. split; [reflexivity |].
  rewrite fold_left_app.
  destruct O as [Hm Hp Hf | Hm Hf | p Hm Hf Hd Hp | Hm Hf Hd | Hm Hor];
    cbn [fold_left Fullscreen.slot Fullscreen.on_mountain_detected
         Fullscreen.on_max_value_updated Fullscreen.max_value_widget
         Fullscreen.realtime_widget Fullscreen.with_buffer
         Fullscreen.status_label].
  all: cbn [Fullscreen.in_mountain]; simpl in Hm.
  1, 2, 4, 5:
    (split; [apply update_max_value_covers |];
     split; [now apply update_max_value_nonneg |];
     split; [now apply update_max_value_raises |];
     split; [reflexivity |];
     split; [| reflexivity];
     intros Hpos Hin; try lra; try congruence; split; reflexivity).
  split; [apply update_max_value_covers |].
  split; [now apply update_max_value_nonneg, update_max_value_nonneg |].
  split; [intro; lra |].
  split; [discriminate |].
  split; [intros Hpos _; lra |].
  intros r Hr. discriminate Hr.
Qed.

Lemma C9_tracker_sees_every_sample_witness :
  exists m' accepted,
    Fullscreen.data_received
      (Scenario.fs_after [(0, 0); (2, 10); (2.1, 0)]) (2.5, 20) =
      Some (m', accepted ++ [Fullscreen.max_value_updated 2.5 20 []]) /\
    Fullscreen.max_force (Fullscreen.max_value_widget m') = 20.
Proof.
  destruct (proj1 C9_tracker_sees_every_sample
              (Scenario.fs_after [(0, 0); (2, 10); (2.1, 0)]) (2.5, 20))
    as (m' & accepted & Hstep & _ & _ & Hraise & _).
  - vm_compute. discriminate.
  - exists m', accepted. split; [exact Hstep |].
    apply Hraise. vm_compute. reflexivity.
Defined.

(** ** C10: the high scores *)

Lemma insert_desc_sorted (x : Z) (l : list Z) :
  StronglySorted Z.ge l -> StronglySorted Z.ge (Py.insert_desc x l).
Proof.
  induction l as [| y r IH]; intro Hs; simpl.
  - constructor; constructor.
  - apply StronglySorted_inv in Hs. destruct Hs as [Hr Hy].
    destruct (y <? x)%Z eqn:E.
    + apply Z.ltb_lt in E. constructor.
      * now constructor.
      * constructor; [lia |].
        eapply Forall_impl; [| exact Hy]. intros a Ha. simpl in Ha. lia.
    + apply Z.ltb_ge in E. constructor; [now apply IH |].
      apply Forall_forall. intros a Ha.
      apply (Permutation_in _ (insert_desc_perm x r)) in Ha.
      destruct Ha as [<- | Ha]; [lia |].
      rewrite Forall_forall in Hy. now apply Hy.
Qed.

Lemma sort_reverse_sorted (l : list Z) : StronglySorted Z.ge (Py.sort_reverse l).
Proof.
  induction l as [| x r IH]; simpl.
  - constructor.
  - now apply insert_desc_sorted.
Qed.

Lemma in_firstn {A} (n : nat) :
  forall (l : list A) (a : A), In a (firstn n l) -> In a l.
Proof.
  induction n as [| n IH]; intros l a Ha; simpl in Ha; [contradiction |].
  destruct l as [| x r]; [contradiction |].
  destruct Ha as [-> | Ha]; [now left | right; now apply IH].
Qed.

Lemma firstn_sorted (n : nat) :
  forall l, StronglySorted Z.ge l -> StronglySorted Z.ge (firstn n l).
Proof.
  induction n as [| n IH]; intros l Hs; simpl.
  - constructor.
  - destruct l as [| x r]; [constructor |].
    apply StronglySorted_inv in Hs. destruct Hs as [Hr Hx].
    constructor; [now apply IH |].
    apply Forall_forall. intros a Ha.
    rewrite Forall_forall in Hx. apply Hx.
    eapply in_firstn. exact Ha.
Qed.

(** One insertion keeps the leaderboard, and the first entry never goes
    down. *)
Lemma update_high_score_keeps (submitted : list Z) (score : Z)
    (w : Punching.PunchingScoreWidget) :
  Scenario.leaderboard_of submitted w ->
  exists w',
    Punching.update_high_score score w = Some w' /\
    Scenario.leaderboard_of (submitted ++ [score]) w' /\
    (submitted <> [] \/ (0 <= score)%Z ->
     (Punching.high_score_label w <= Punching.high_score_label w')%Z).
Proof.
  intros (Hsorted & Hlen & Hincl & Hinit & Hbest).
  destruct (update_high_score_total score w) as (best & Hnth & ->).
  eexists. split; [reflexivity |].
  pose proof (sort_reverse_sorted (Punching.high_scores w ++ [score])) as Hs.
  pose proof (sort_reverse_perm (Punching.high_scores w ++ [score])) as Hp.
  destruct (Py.sort_reverse (Punching.high_scores w ++ [score]))
    as [| b r] eqn:E; [discriminate |].
  simpl in Hnth. injection Hnth as <-.
  apply StronglySorted_inv in Hs. destruct Hs as [Hr Hb].
  rewrite Forall_forall in Hb.
  assert (Htop : forall x, In x (Punching.high_scores w ++ [score]) -> (x <= b)%Z).
  { intros x Hx. apply (Permutation_in _ (Permutation_sym Hp)) in Hx.
    destruct Hx as [<- | Hx]; [lia |]. specialize (Hb x Hx). lia. }
  assert (Hall : forall x, In x (submitted ++ [score]) -> (x <= b)%Z).
  { intros x Hx. apply in_app_or in Hx. destruct Hx as [Hx | Hx].
    - destruct submitted as [| s0 sub]; [contradiction |].
      destruct Hbest as (best & Hhd & _ & Hmax); [discriminate |].
      specialize (Hmax x Hx).
      assert (Hin : In best (Punching.high_scores w)).
      { destruct (Punching.high_scores w); [discriminate |].
        injection Hhd as ->. now left. }
      assert (best <= b)%Z by (apply Htop, in_or_app; now left). lia.
    - apply Htop, in_or_app. now right. }
  unfold Scenario.leaderboard_of. cbn [Punching.high_scores Punching.high_score_label].
  repeat split.
  - apply (firstn_sorted 5 (b :: r)). constructor; [exact Hr |].
    apply Forall_forall. intros a Ha. specialize (Hb a Ha). exact Hb.
  - apply firstn_le_length.
  - intros x Hx. apply in_firstn in Hx.
    apply (Permutation_in _ Hp) in Hx.
    apply in_app_or in Hx. apply in_or_app.
    destruct Hx as [Hx | Hx]; [left; now apply Hincl | now right].
  - intro Hnil. now destruct submitted.
  - intros _. exists b. repeat split. exact Hall.
  - intros [Hne | Hpos].
    + destruct (Hbest Hne) as (best & Hhd & -> & _).
      apply Htop, in_or_app. left.
      destruct (Punching.high_scores w); [discriminate |].
      injection Hhd as ->. now left.
    + destruct submitted as [| s0 sub].
      * rewrite Hinit by reflexivity.
        assert (score <= b)%Z by (apply Htop, in_or_app; right; now left). lia.
      * destruct Hbest as (best & Hhd & -> & _); [discriminate |].
        apply Htop, in_or_app. left.
        destruct (Punching.high_scores w); [discriminate |].
        injection Hhd as ->. now left.
Qed.

Lemma submit_all_keeps (forces : list Q) :
  forall submitted w,
    Scenario.leaderboard_of submitted w ->
    exists w',
      Scenario.submit_all w forces = Some w' /\
      Scenario.leaderboard_of (submitted ++ map Py.int forces) w'.
Proof.
  induction forces as [| f r IH]; intros submitted w Hw; simpl.
  - exists w. rewrite app_nil_r. auto.
  - unfold Punching.update_score.
    match goal with
    | |- context [Punching.update_high_score ?s ?v] =>
        destruct (update_high_score_keeps submitted s v) as (w1 & -> & H1 & _)
    end.
    { exact Hw. }
    cbn [Py.bind].
    destruct (IH _ _ H1) as (w' & E & H').
    exists w'. split; [exact E |]. now rewrite <- app_assoc in H'.
Qed.

Lemma submit_all_app (a b : list Q) :
  forall w,
    Scenario.submit_all w (a ++ b) =
    (w1 <- Scenario.submit_all w a ;; Scenario.submit_all w1 b).
Proof.
  induction a as [| f a IH]; intro w; simpl; [reflexivity |].
  destruct (Punching.update_score f w); simpl; [apply IH | reflexivity].
Qed.

Lemma leaderboard_of_init :
  Scenario.leaderboard_of [] Punching.PunchingScoreWidget_init.
Proof.
  repeat split; simpl.
  - constructor.
  - lia.
  - intros x [].
  - congruence.
Qed.

(** C10.  After any finite sequence of scores submitted through
    [update_score], the list of high scores is in non-increasing order and
    holds at most 5 entries; once a score has been submitted its first entry,
    which is the high score displayed, is one of the submitted scores and no
    submitted score exceeds it.  One more submission never lowers the
    displayed high score (for the first submission: never below the 0
    displayed at start, provided the score is not negative). *)
Theorem C10_leaderboard :
  forall forces,
  exists w,
    Scenario.submit_all Punching.PunchingScoreWidget_init forces = Some w /\
    StronglySorted Z.ge (Punching.high_scores w) /\
    (List.length (Punching.high_scores w) <= 5)%nat /\
    (forces <> [] ->
     exists best,
       hd_error (Punching.high_scores w) = Some best /\
       Punching.high_score_label w = best /\
       In best (map Py.int forces) /\
       forall x, In x (map Py.int forces) -> (x <= best)%Z) /\
    (forall f,
     exists w',
       Scenario.submit_all Punching.PunchingScoreWidget_init (forces ++ [f])
         = Some w' /\
       (forces <> [] \/ (0 <= Py.int f)%Z ->
        (Punching.high_score_label w <= Punching.high_score_label w')%Z)).
Proof.
  intro forces.
  destruct (submit_all_keeps forces [] _ leaderboard_of_init) as (w & E & Hw).
  simpl in Hw. exists w. split; [exact E |].
  pose proof Hw as (Hsorted & Hlen & Hincl & Hinit & Hbest).
  split; [exact Hsorted |]. split; [exact Hlen |]. split.
  - intro Hne.
    destruct Hbest as (best & Hhd & Hlabel & Hmax).
    { destruct forces; [congruence | discriminate]. }
    exists best. repeat split; auto.
    apply Hincl. destruct (Punching.high_scores w); [discriminate |].
    injection Hhd as ->. now left.
  - intro f. rewrite submit_all_app, E. cbn [Py.bind Scenario.submit_all].
    unfold Punching.update_score.
    match goal with
    | |- context [Punching.update_high_score ?s ?v] =>
        destruct (update_high_score_keeps (map Py.int forces) s v)
          as (w' & -> & _ & Hmono)
    end.
    { exact Hw. }
    exists w'. split; [reflexivity |].
    intros [Hne | Hpos]; apply Hmono; [left | now right].
    destruct forces; [congruence | discriminate].
Qed.

Lemma C10_leaderboard_witness :
  exists w,
    Scenario.submit_all Punching.PunchingScoreWidget_init
      [150.7; 3200; 980.2; 150; 2100; 640.9; 3199.5] = Some w /\
    Punching.high_score_label w = 3200%Z.
Proof.
  destruct (C10_leaderboard [150.7; 3200; 980.2; 150; 2100; 640.9; 3199.5])
    as (w & Hrun & _ & _ & Hbest & _).
  exists w. split; [exact Hrun |].
  destruct Hbest as (best & _ & -> & Hin & Hmax); [discriminate |].
  assert (H : (3200 <= best)%Z).
  { apply Hmax. vm_compute. right. left. reflexivity. }
  vm_compute in Hin.
  repeat (destruct Hin as [Hin | Hin]; [lia |]). contradiction.
Defined.

(** ** Whole runs: the shape of the events *)

Lemma popleft_while_keeps_last (s : Py.sample) (l : list Py.sample) :
  exists kept, Window.popleft_while (fst s) (l ++ [s]) = kept ++ [s].
Proof.
  induction l as [| e l IH]; simpl.
  - destruct (Py.gtb (fst s - fst s) 5.0) eqn:E; order_facts; [lra |].
    now exists [].
  - destruct (Py.gtb (fst s - fst e) 5.0); [exact IH |].
    now exists (e :: l).
Qed.

(** The newest sample survives the append and the eviction. *)
Lemma append_and_evict_keeps_last (d : list Py.sample) (s : Py.sample) :
  exists kept, Window.append_and_evict d s = kept ++ [s].
Proof.
  unfold Window.append_and_evict.
  destruct (deque_append_suffix d s) as (dropped & kept & -> & _).
  unfold Window.update_plot. rewrite last_last.
  destruct (List.length (kept ++ [s]) <? 2)%nat.
  - now exists kept.
  - apply popleft_while_keeps_last.
Qed.

(** With the previous sample still in the buffer, [prev_force] is its
    force. *)
Lemma prev_force_after_append (kept : list Py.sample) (p s : Py.sample) :
  Window.prev_force (Py.deque_append 500 (kept ++ [p]) s) = snd p.
Proof.
  unfold Py.deque_append, Window.prev_force.
  destruct (500 <=? List.length (kept ++ [p]))%nat eqn:E.
  - destruct kept as [| x k]; [discriminate E |].
    cbn [app tl]. rewrite !rev_app_distr. reflexivity.
  - rewrite !rev_app_distr. reflexivity.
Qed.

Lemma closes_extend (threshold : Q) (d seen : list Py.sample) (s : Py.sample) :
  Trace.closes threshold d seen ->
  Trace.closes threshold (d ++ [s]) (seen ++ [s]).
Proof.
  intros (pre & -> & H). exists pre. split; [now rewrite app_assoc | exact H].
Qed.

(** One sample of the full-screen application keeps [Trace.fs_tracks], and
    an event it emits has the shape of an event and closes the samples seen. *)
Lemma fs_tracks_step (seen : list Py.sample) (m m' : Fullscreen.MainWindow)
    (s : Py.sample) (sigs : list Fullscreen.signal) :
  Trace.fs_tracks seen (Fullscreen.realtime_widget m) ->
  Fullscreen.data_received m s = Some (m', sigs) ->
  Trace.fs_tracks (seen ++ [s]) (Fullscreen.realtime_widget m') /\
  forall d, In d (Trace.fs_events sigs) ->
    Trace.fs_event_shape d /\ Trace.closes 0 d (seen ++ [s]).
Proof.
  intros (Hbuf & Hempty & Hcm) Hstep.
  pose proof (fs_buffer_step _ _ _ _ Hstep) as Hbuffer.
  destruct (fs_data_received_cases m s) as (w1 & detected & O & E).
  rewrite E in Hstep. injection Hstep as <- <-.
  assert (Hprev :
    seen = [] \/
    snd (last seen (0, 0)) =
    Window.prev_force
      (Py.deque_append 500
         (Fullscreen.data_buffer (Fullscreen.realtime_widget m))
         (fst s, snd s))).
  { destruct seen as [| x seen']; [now left | right].
    destruct Hbuf as [kept ->]; [discriminate |].
    now rewrite prev_force_after_append. }
  unfold Trace.fs_events. rewrite flat_map_app.
  rewrite fs_slots_keep_realtime in *.
  cbn [Fullscreen.realtime_widget] in *.
  destruct s as [t f]. cbn [fst snd] in *.
  assert (Hb :
    (seen ++ [(t, f)] <> [] ->
     exists kept,
       Window.append_and_evict
         (Fullscreen.data_buffer (Fullscreen.realtime_widget m)) (t, f)
       = kept ++ [last (seen ++ [(t, f)]) (0, 0)]) /\
    (seen ++ [(t, f)] = [] ->
     Window.append_and_evict
       (Fullscreen.data_buffer (Fullscreen.realtime_widget m)) (t, f) = [])).
  { split.
    - intros _. rewrite last_last. apply append_and_evict_keeps_last.
    - intro H. now destruct seen. }
  destruct Hb as [Hb1 Hb2].
  destruct O as [Hm Hp Hf | Hm Hf | p Hm Hf Hd Hp | Hm Hf Hd | Hm Hor];
    cbn [Fullscreen.with_buffer Fullscreen.data_buffer Fullscreen.in_mountain
         Fullscreen.current_mountain flat_map app] in *;
    (split;
     [ split; [rewrite Hbuffer; exact Hb1 |];
       split; [rewrite Hbuffer; exact Hb2 |]
     | ]).
  - intros _. split; [discriminate |]. split.
    + intros x [<- | []]. exact Hf.
    + exists seen. split; [reflexivity |].
      destruct Hprev as [-> | ->]; [now left | now right].
  - intros d [].
  - intros _. destruct (Hcm Hm) as (Hne & Hpos & Hcl).
    split; [now destruct (Fullscreen.current_mountain (Fullscreen.realtime_widget m)) |].
    split; [| now apply closes_extend].
    intros x Hx. apply in_app_or in Hx. destruct Hx as [Hx | [<- | []]]; auto.
  - intros d [].
  - discriminate.
  - intros d [<- | []]. destruct (Hcm Hm) as (Hne & Hpos & Hcl).
    split; [| now apply closes_extend].
    exists (Fullscreen.current_mountain (Fullscreen.realtime_widget m)), t, f.
    repeat split; auto.
  - discriminate.
  - intros d [].
  - intro Hin. simpl in Hin. congruence.
  - intros d [].
Qed.

Lemma fs_events_app (a b : list Fullscreen.signal) :
  Trace.fs_events (a ++ b) = Trace.fs_events a ++ Trace.fs_events b.
Proof. apply flat_map_app. Qed.

Lemma fs_run_cons (m m2 : Fullscreen.MainWindow) (s : Py.sample)
    (r : list Py.sample) (sigs : list Fullscreen.signal) :
  Fullscreen.run m (s :: r) = Some (m2, sigs) ->
  exists m1 sig1 sig2,
    Fullscreen.data_received m s = Some (m1, sig1) /\
    Fullscreen.run m1 r = Some (m2, sig2) /\
    sigs = sig1 ++ sig2.
Proof.
  simpl. intro H.
  destruct (Fullscreen.data_received m s) as [[m1 sig1] |] eqn:E1;
    [| discriminate].
  cbn [Py.bind] in H.
  destruct (Fullscreen.run m1 r) as [[m2' sig2] |] eqn:E2; [| discriminate].
  cbn [Py.bind] in H. injection H as <- <-.
  now exists m1, sig1, sig2.
Qed.

Lemma fs_tracks_run (stream : list Py.sample) :
  forall seen m m' sigs,
    Trace.fs_tracks seen (Fullscreen.realtime_widget m) ->
    Fullscreen.run m stream = Some (m', sigs) ->
    Trace.fs_tracks (seen ++ stream) (Fullscreen.realtime_widget m') /\
    forall d, In d (Trace.fs_events sigs) ->
      Trace.fs_event_shape d /\ Trace.segment_of 0 d (seen ++ stream).
Proof.
  induction stream as [| s r IH]; intros seen m m' sigs Hinv Hrun.
  - simpl in Hrun. injection Hrun as <- <-. rewrite app_nil_r.
    split; [exact Hinv | intros d []].
  - apply fs_run_cons in Hrun.
    destruct Hrun as (m1 & sig1 & sig2 & E1 & E2 & ->).
    destruct (fs_tracks_step _ _ _ _ _ Hinv E1) as [H1 Hev1].
    destruct (IH _ _ _ _ H1 E2) as [H2 Hev2].
    replace (seen ++ s :: r) with ((seen ++ [s]) ++ r)
      by (now rewrite <- app_assoc).
    split; [exact H2 |].
    intros d Hd. rewrite fs_events_app in Hd. apply in_app_or in Hd.
    destruct Hd as [Hd | Hd]; [| now apply Hev2].
    destruct (Hev1 d Hd) as [Hshape Hcl].
    split; [exact Hshape |]. now exists (seen ++ [s]), r.
Qed.

Lemma fs_tracks_init : Trace.fs_tracks [] Fullscreen.init_data.
Proof.
  repeat split; try discriminate. congruence.
Qed.

(** On a stream of finite samples (no NaN, no infinity), every event the
    full-screen application emits is a run of consecutive samples of the
    stream: one or more samples above 0, then the first sample at or below
    0; it begins at the start of the stream or right after a sample at or
    below 0. *)
Theorem fs_events_are_pulses :
  forall stream m sigs d,
    Fullscreen.run Fullscreen.MainWindow_init stream = Some (m, sigs) ->
    In d (Trace.fs_events sigs) ->
    Trace.fs_event_shape d /\ Trace.segment_of 0 d stream.
Proof.
  intros stream m sigs d Hrun Hd.
  destruct (fs_tracks_run stream [] Fullscreen.MainWindow_init _ _
              fs_tracks_init Hrun) as [_ H].
  now apply H.
Qed.

Lemma fs_events_are_pulses_witness :
  Trace.fs_event_shape [(2, 10); (2.1, 0)] /\
  Trace.segment_of 0 [(2, 10); (2.1, 0)] (Scenario.two_pulses 10 20).
Proof.
  eapply (fs_events_are_pulses (Scenario.two_pulses 10 20)).
  - vm_compute. reflexivity.
  - left. reflexivity.
Defined.

Lemma pm_tracks_step (seen : list Py.sample) (m m' : Punching.MainWindow)
    (s : Py.sample) (detected : list (list Py.sample)) :
  Trace.pm_tracks seen (Punching.realtime_widget m) ->
  Punching.data_received m s = Some (m', detected) ->
  Trace.pm_tracks (seen ++ [s]) (Punching.realtime_widget m') /\
  forall d, In d detected ->
    Trace.pm_event_shape d /\
    Trace.closes Punching.start_threshold d (seen ++ [s]).
Proof.
  intros (Hbuf & Hempty & Hcm) Hstep.
  pose proof (pm_buffer_step _ _ _ _ Hstep) as Hbuffer.
  destruct (pm_data_received_cases m s) as (w1 & det & O & E).
  rewrite E in Hstep. injection Hstep as <- <-.
  assert (Hprev :
    seen = [] \/
    snd (last seen (0, 0)) =
    Window.prev_force
      (Py.deque_append 500
         (Punching.data_buffer (Punching.realtime_widget m))
         (fst s, snd s))).
  { destruct seen as [| x seen']; [now left | right].
    destruct Hbuf as [kept ->]; [discriminate |].
    now rewrite prev_force_after_append. }
  rewrite pm_slots_keep_realtime in *.
  cbn [Punching.realtime_widget] in *.
  destruct s as [t f]. cbn [fst snd] in *.
  assert (Hb :
    (seen ++ [(t, f)] <> [] ->
     exists kept,
       Window.append_and_evict
         (Punching.data_buffer (Punching.realtime_widget m)) (t, f)
       = kept ++ [last (seen ++ [(t, f)]) (0, 0)]) /\
    (seen ++ [(t, f)] = [] ->
     Window.append_and_evict
       (Punching.data_buffer (Punching.realtime_widget m)) (t, f) = [])).
  { split.
    - intros _. rewrite last_last. apply append_and_evict_keeps_last.
    - intro H. now destruct seen. }
  destruct Hb as [Hb1 Hb2].
  destruct O as [Hm Hp Hf | Hm Hf | p scored Hm Hf Hp Hs | Hm Hor];
    cbn [Punching.with_buffer Punching.data_buffer Punching.in_mountain
         Punching.current_mountain] in *;
    (split;
     [ split; [rewrite Hbuffer; exact Hb1 |];
       split; [rewrite Hbuffer; exact Hb2 |]
     | ]).
  - intros _. exists (t, f), []. split; [reflexivity |].
    split; [exact Hf |]. split; [intros x [] |].
    exists seen. split; [reflexivity |].
    destruct Hprev as [-> | ->]; [now left | now right].
  - intros d [].
  - intros _. destruct (Hcm Hm) as (first & body & Ecm & Hfirst & Hbody & Hcl).
    exists first, (body ++ [(t, f)]). rewrite Ecm in *.
    split; [reflexivity |]. split; [exact Hfirst |]. split.
    + intros x Hx. apply in_app_or in Hx. destruct Hx as [Hx | [<- | []]]; auto.
    + now apply closes_extend.
  - intros d [].
  - discriminate.
  - intros d [<- | []].
    destruct (Hcm Hm) as (first & body & Ecm & Hfirst & Hbody & Hcl).
    split; [| now apply closes_extend].
    exists first, body, t, f. rewrite Ecm. repeat split; auto.
  - intro Hin. simpl in Hin. congruence.
  - intros d [].
Qed.

Lemma pm_run_cons (m m2 : Punching.MainWindow) (s : Py.sample)
    (r : list Py.sample) (detected : list (list Py.sample)) :
  Punching.run m (s :: r) = Some (m2, detected) ->
  exists m1 d1 d2,
    Punching.data_received m s = Some (m1, d1) /\
    Punching.run m1 r = Some (m2, d2) /\
    detected = d1 ++ d2.
Proof.
  simpl. intro H.
  destruct (Punching.data_received m s) as [[m1 d1] |] eqn:E1;
    [| discriminate].
  cbn [Py.bind] in H.
  destruct (Punching.run m1 r) as [[m2' d2] |] eqn:E2; [| discriminate].
  cbn [Py.bind] in H. injection H as <- <-.
  now exists m1, d1, d2.
Qed.

Lemma pm_tracks_run (stream : list Py.sample) :
  forall seen m m' detected,
    Trace.pm_tracks seen (Punching.realtime_widget m) ->
    Punching.run m stream = Some (m', detected) ->
    Trace.pm_tracks (seen ++ stream) (Punching.realtime_widget m') /\
    forall d, In d detected ->
      Trace.pm_event_shape d /\
      Trace.segment_of Punching.start_threshold d (seen ++ stream).
Proof.
  induction stream as [| s r IH]; intros seen m m' detected Hinv Hrun.
  - simpl in Hrun. injection Hrun as <- <-. rewrite app_nil_r.
    split; [exact Hinv | intros d []].
  - apply pm_run_cons in Hrun.
    destruct Hrun as (m1 & d1 & d2 & E1 & E2 & ->).
    destruct (pm_tracks_step _ _ _ _ _ Hinv E1) as [H1 Hev1].
    destruct (IH _ _ _ _ H1 E2) as [H2 Hev2].
    replace (seen ++ s :: r) with ((seen ++ [s]) ++ r)
      by (now rewrite <- app_assoc).
    split; [exact H2 |].
    intros d Hd. apply in_app_or in Hd.
    destruct Hd as [Hd | Hd]; [| now apply Hev2].
    destruct (Hev1 d Hd) as [Hshape Hcl].
    split; [exact Hshape |]. now exists (seen ++ [s]), r.
Qed.

Lemma pm_tracks_init : Trace.pm_tracks [] Punching.init_data.
Proof.
  repeat split; try discriminate. congruence.
Qed.

(** On a stream of finite samples (no NaN, no infinity), every event the
    punching application emits is a run of consecutive samples of the
    stream: a first sample above 100 that follows a sample at or below 100
    (or opens the stream), then samples above 50, then the first sample at
    or below 50. *)
Theorem pm_events_are_punches :
  forall stream m detected d,
    Punching.run Punching.MainWindow_init stream = Some (m, detected) ->
    In d detected ->
    Trace.pm_event_shape d /\
    Trace.segment_of Punching.start_threshold d stream.
Proof.
  intros stream m detected d Hrun Hd.
  destruct (pm_tracks_run stream [] Punching.MainWindow_init _ _
              pm_tracks_init Hrun) as [_ H].
  now apply H.
Qed.

Lemma pm_events_are_punches_witness :
  Trace.pm_event_shape [(0.2, 150); (0.3, 80); (0.4, 0)] /\
  Trace.segment_of Punching.start_threshold
    [(0.2, 150); (0.3, 80); (0.4, 0)] Scenario.detection.
Proof.
  eapply (pm_events_are_punches Scenario.detection).
  - vm_compute. reflexivity.
  - left. reflexivity.
Defined.

(** ** Whole runs: no exception *)

Lemma fs_run_total (stream : list Py.sample) :
  forall m, exists m' sigs, Fullscreen.run m stream = Some (m', sigs).
Proof.
  induction stream as [| s r IH]; intro m; simpl.
  - now exists m, [].
  - destruct (fs_data_received_cases m s) as (w1 & detected & _ & ->).
    cbn [Py.bind].
    match goal with
    | |- context [Fullscreen.run ?m1 r] =>
        destruct (IH m1) as (m' & sigs & ->)
    end.
    cbn [Py.bind]. eauto.
Qed.

Lemma pm_run_total (stream : list Py.sample) :
  forall m, exists m' detected, Punching.run m stream = Some (m', detected).
Proof.
  induction stream as [| s r IH]; intro m; simpl.
  - now exists m, [].
  - destruct (pm_data_received_cases m s) as (w1 & detected & _ & ->).
    cbn [Py.bind].
    match goal with
    | |- context [Punching.run ?m1 r] =>
        destruct (IH m1) as (m' & det & ->)
    end.
    cbn [Py.bind]. eauto.
Qed.

(** On streams of finite samples (no NaN, no infinity) neither application
    raises, from any state: [max] is only applied to a mountain that holds
    the sample just appended, [int] only to a finite maximum, and
    [high_scores[0]] is only read after a score has been appended. *)
Theorem runs_never_raise :
  (forall stream m, Fullscreen.run m stream <> None) /\
  (forall stream m, Punching.run m stream <> None).
Proof.
  split; intros stream m H.
  - destruct (fs_run_total stream m) as (m' & sigs & E). congruence.
  - destruct (pm_run_total stream m) as (m' & d & E). congruence.
Qed.

(** ** Whole runs: the spacing of accepted events *)

Lemma last_cons_default {A} (l : list A) :
  forall (x d d' : A), last (x :: l) d = last (x :: l) d'.
Proof.
  induction l as [| y l IH]; intros x d d'; [reflexivity |].
  change (last (y :: l) d = last (y :: l) d'). apply IH.
Qed.

Lemma spaced_app (a b : list Q) :
  forall reference,
    Trace.spaced reference a ->
    Trace.spaced (last a reference) b ->
    Trace.spaced reference (a ++ b).
Proof.
  induction a as [| t a IH]; intros reference Ha Hb.
  - exact Hb.
  - destruct Ha as [Ht Ha]. split; [exact Ht |].
    apply IH; [exact Ha |].
    destruct a as [| q a]; [exact Hb |].
    rewrite (last_cons_default a q t reference).
    exact Hb.
Qed.

(** A sample accepts at most one event; when it does, the event closes at
    the sample's timestamp, at least 1.0 s after the debounce reference,
    and the sample becomes the reference. *)
Lemma fs_spacing_step (m m' : Fullscreen.MainWindow) (s : Py.sample)
    (sigs : list Fullscreen.signal) :
  Fullscreen.data_received m s = Some (m', sigs) ->
  (Trace.fs_events sigs = [] /\
   Fullscreen.last_mountain_timestamp (Fullscreen.realtime_widget m') =
   Fullscreen.last_mountain_timestamp (Fullscreen.realtime_widget m)) \/
  (exists d,
     Trace.fs_events sigs = [d] /\
     Trace.closing_time d = fst s /\
     1.0 <= fst s - Fullscreen.last_mountain_timestamp
                      (Fullscreen.realtime_widget m) /\
     Fullscreen.last_mountain_timestamp (Fullscreen.realtime_widget m') = fst s).
Proof.
  intro Hstep.
  destruct (fs_data_received_cases m s) as (w1 & detected & O & E).
  rewrite E in Hstep. injection Hstep as <- <-.
  rewrite fs_slots_keep_realtime, fs_events_app.
  destruct s as [t f].
  destruct O as [Hm Hp Hf | Hm Hf | p Hm Hf Hd Hp | Hm Hf Hd | Hm Hor];
    simpl; auto.
  right. eexists. split; [reflexivity |].
  unfold Trace.closing_time. rewrite last_last. simpl in Hd. auto.
Qed.

Lemma fs_spacing_run (stream : list Py.sample) :
  forall m m' sigs,
    Fullscreen.run m stream = Some (m', sigs) ->
    Trace.spaced
      (Fullscreen.last_mountain_timestamp (Fullscreen.realtime_widget m))
      (map Trace.closing_time (Trace.fs_events sigs)) /\
    Fullscreen.last_mountain_timestamp (Fullscreen.realtime_widget m') =
    last (map Trace.closing_time (Trace.fs_events sigs))
      (Fullscreen.last_mountain_timestamp (Fullscreen.realtime_widget m)).
Proof.
  induction stream as [| s r IH]; intros m m' sigs Hrun.
  - simpl in Hrun. injection Hrun as <- <-. simpl. auto.
  - apply fs_run_cons in Hrun.
    destruct Hrun as (m1 & sig1 & sig2 & E1 & E2 & ->).
    destruct (IH _ _ _ E2) as [Hsp Hlast].
    rewrite fs_events_app, map_app.
    destruct (fs_spacing_step _ _ _ _ E1)
      as [[-> Hsame] | (d & -> & Hclose & Hgap & Hnew)].
    + simpl. rewrite <- Hsame. auto.
    + cbn [map app]. rewrite Hclose. rewrite Hnew in *. split.
      * simpl. auto.
      * rewrite Hlast.
        destruct (map Trace.closing_time (Trace.fs_events sig2)) as [| q l];
          [reflexivity |].
        change (last (q :: l) (fst s) =
                last (q :: l)
                  (Fullscreen.last_mountain_timestamp
                     (Fullscreen.realtime_widget m))).
        apply last_cons_default.
Qed.

(** The events accepted by the full-screen application over any stream,
    from the initial state, close at least 1.0 s apart, and the first of
    them at a timestamp of 1.0 or more: a pulse that closes before 1.0 is
    never accepted, even when nothing was accepted before it. *)
Theorem fs_accepted_events_are_spaced :
  forall stream m sigs,
    Fullscreen.run Fullscreen.MainWindow_init stream = Some (m, sigs) ->
    Trace.spaced 0 (map Trace.closing_time (Trace.fs_events sigs)) /\
    forall d, In d (Trace.fs_events sigs) -> 1.0 <= Trace.closing_time d.
Proof.
  intros stream m sigs Hrun.
  destruct (fs_spacing_run _ _ _ _ Hrun) as [Hsp _].
  change (Fullscreen.last_mountain_timestamp
            (Fullscreen.realtime_widget Fullscreen.MainWindow_init))
    with 0 in Hsp.
  split; [exact Hsp |].
  intros d Hd. apply (in_map Trace.closing_time) in Hd.
  revert Hsp Hd.
  generalize (map Trace.closing_time (Trace.fs_events sigs)).
  assert (Hgen : forall l reference,
             0 <= reference -> Trace.spaced reference l ->
             forall t, In t l -> 1.0 <= t).
  { induction l as [| x l IHl]; intros reference Href Hsp t Ht;
      [contradiction |].
    destruct Hsp as [Hx Hl]. destruct Ht as [<- | Ht]; [lra |].
    apply (IHl x); [lra | exact Hl | exact Ht]. }
  intros l Hsp Hd. apply (Hgen l 0); [lra | exact Hsp | exact Hd].
Qed.

Lemma fs_accepted_events_are_spaced_witness :
  exists m sigs,
    Fullscreen.run Fullscreen.MainWindow_init Scenario.four_pulses
      = Some (m, sigs) /\
    Trace.spaced 0 (map Trace.closing_time (Trace.fs_events sigs)).
Proof.
  eexists _, _. split.
  - vm_compute. reflexivity.
  - refine (proj1 (fs_accepted_events_are_spaced Scenario.four_pulses _ _ _)).
    vm_compute. reflexivity.
Defined.

(** ** Whole runs: the histories *)

Lemma firstn_app_firstn {A} (a : list A) :
  forall (n k : nat) (b : list A),
    (n <= k)%nat -> firstn n (a ++ firstn k b) = firstn n (a ++ b).
Proof.
  induction a as [| x a IH]; intros n k b Hnk; simpl.
  - rewrite firstn_firstn. now rewrite Nat.min_l.
  - destruct n as [| n]; [reflexivity |]. simpl. f_equal.
    apply IH. lia.
Qed.

Lemma fs_history_step (m m' : Fullscreen.MainWindow) (s : Py.sample)
    (sigs : list Fullscreen.signal) :
  Fullscreen.data_received m s = Some (m', sigs) ->
  (List.length
     (Fullscreen.past_mountains (Fullscreen.past_waveforms_widget m)) <= 3)%nat ->
  Fullscreen.past_mountains (Fullscreen.past_waveforms_widget m') =
  firstn 3 (rev (Trace.fs_events sigs) ++
            Fullscreen.past_mountains (Fullscreen.past_waveforms_widget m)).
Proof.
  intros Hstep Hlen.
  destruct (fs_data_received_cases m s) as (w1 & detected & O & E).
  rewrite E in Hstep. injection Hstep as <- <-.
  rewrite fs_events_app, fold_left_app.
  destruct s as [t f].
  destruct O as [Hm Hp Hf | Hm Hf | p Hm Hf Hd Hp | Hm Hf Hd | Hm Hor];
    cbn [fold_left Fullscreen.slot Fullscreen.on_mountain_detected
         Fullscreen.on_max_value_updated Fullscreen.past_waveforms_widget
         Trace.fs_events flat_map app rev];
    try (now rewrite firstn_all2).
  unfold Fullscreen.add_new_waveform.
  cbn [Fullscreen.with_buffer Fullscreen.current_mountain fst snd].
  destruct (Fullscreen.current_mountain (Fullscreen.realtime_widget m) ++ [(t, f)])
    as [| x l] eqn:Ed.
  - now destruct (Fullscreen.current_mountain (Fullscreen.realtime_widget m)).
  - reflexivity.
Qed.

Lemma fs_history_run (stream : list Py.sample) :
  forall m m' sigs,
    Fullscreen.run m stream = Some (m', sigs) ->
    (List.length
       (Fullscreen.past_mountains (Fullscreen.past_waveforms_widget m)) <= 3)%nat ->
    Fullscreen.past_mountains (Fullscreen.past_waveforms_widget m') =
    firstn 3 (rev (Trace.fs_events sigs) ++
              Fullscreen.past_mountains (Fullscreen.past_waveforms_widget m)).
Proof.
  induction stream as [| s r IH]; intros m m' sigs Hrun Hlen.
  - simpl in Hrun. injection Hrun as <- <-.
    cbn [Trace.fs_events flat_map rev app]. now rewrite firstn_all2.
  - apply fs_run_cons in Hrun.
    destruct Hrun as (m1 & sig1 & sig2 & E1 & E2 & ->).
    pose proof (fs_history_step _ _ _ _ E1 Hlen) as H1.
    rewrite (IH _ _ _ E2).
    + rewrite H1, fs_events_app, rev_app_distr, <- app_assoc.
      now apply firstn_app_firstn.
    + rewrite H1. apply firstn_le_length.
Qed.

(** Over any stream fed from the initial state, the past waveforms of the
    full-screen application are the last three events emitted, newest
    first. *)
Theorem fs_history_is_last_three :
  forall stream m sigs,
    Fullscreen.run Fullscreen.MainWindow_init stream = Some (m, sigs) ->
    Fullscreen.past_mountains (Fullscreen.past_waveforms_widget m) =
    firstn 3 (rev (Trace.fs_events sigs)).
Proof.
  intros stream m sigs Hrun.
  rewrite (fs_history_run _ _ _ _ Hrun); [| simpl; lia].
  simpl. now rewrite app_nil_r.
Qed.

Lemma fs_history_is_last_three_witness :
  exists m sigs,
    Fullscreen.run Fullscreen.MainWindow_init Scenario.four_pulses
      = Some (m, sigs) /\
    Fullscreen.past_mountains (Fullscreen.past_waveforms_widget m) =
    firstn 3 (rev (Trace.fs_events sigs)).
Proof.
  eexists _, _. split.
  - vm_compute. reflexivity.
  - eapply (fs_history_is_last_three Scenario.four_pulses).
    vm_compute. reflexivity.
Defined.

Lemma pm_history_step (m m' : Punching.MainWindow) (s : Py.sample)
    (detected : list (list Py.sample)) :
  Punching.data_received m s = Some (m', detected) ->
  (List.length (Punching.past_mountains (Punching.mountain_window m)) <= 3)%nat ->
  Punching.past_mountains (Punching.mountain_window m') =
    rev (firstn 3 (rev detected ++
                   rev (Punching.past_mountains (Punching.mountain_window m)))) /\
  Punching.mountain_count (Punching.realtime_widget m') =
    (Punching.mountain_count (Punching.realtime_widget m)
     + Z.of_nat (List.length detected))%Z /\
  (detected <> [] ->
   Punching.shown_count (Punching.mountain_window m') =
   Punching.mountain_count (Punching.realtime_widget m')) /\
  (detected = [] ->
   Punching.shown_count (Punching.mountain_window m') =
   Punching.shown_count (Punching.mountain_window m)).
Proof.
  intros Hstep Hlen.
  destruct (pm_data_received_cases m s) as (w1 & det & O & E).
  rewrite E in Hstep. injection Hstep as <- <-.
  destruct s as [t f].
  assert (Hsame :
    rev (firstn 3 (rev (Punching.past_mountains (Punching.mountain_window m))))
    = Punching.past_mountains (Punching.mountain_window m)).
  { rewrite firstn_all2 by (now rewrite length_rev). apply rev_involutive. }
  destruct O as [Hm Hp Hf | Hm Hf | p scored Hm Hf Hp Hs | Hm Hor];
    cbn [fold_left Punching.on_mountain_detected Punching.mountain_window
         Punching.realtime_widget Punching.with_buffer Punching.mountain_count
         Punching.past_mountains Punching.shown_count rev app List.length
         Z.of_nat fst snd];
    try (rewrite Hsame; repeat split; try lia; try congruence).
  unfold Punching.show_mountain.
  cbn [Punching.past_mountains Punching.shown_count].
  repeat split; try lia; try congruence.
  destruct (Punching.past_mountains (Punching.mountain_window m))
    as [| a [| b [| c [| e l]]]]; try reflexivity.
  simpl in Hlen. lia.
Qed.

Lemma pm_history_run (stream : list Py.sample) :
  forall m m' detected,
    Punching.run m stream = Some (m', detected) ->
    (List.length (Punching.past_mountains (Punching.mountain_window m)) <= 3)%nat ->
    Punching.past_mountains (Punching.mountain_window m') =
      rev (firstn 3 (rev detected ++
                     rev (Punching.past_mountains (Punching.mountain_window m)))) /\
    Punching.mountain_count (Punching.realtime_widget m') =
      (Punching.mountain_count (Punching.realtime_widget m)
       + Z.of_nat (List.length detected))%Z /\
    (Punching.shown_count (Punching.mountain_window m) =
     Punching.mountain_count (Punching.realtime_widget m) ->
     Punching.shown_count (Punching.mountain_window m') =
     Punching.mountain_count (Punching.realtime_widget m')).
Proof.
  induction stream as [| s r IH]; intros m m' detected Hrun Hlen.
  - simpl in Hrun. injection Hrun as <- <-.
    cbn [rev app List.length Z.of_nat].
    rewrite firstn_all2 by (now rewrite length_rev).
    rewrite rev_involutive. repeat split; auto. lia.
  - apply pm_run_cons in Hrun.
    destruct Hrun as (m1 & d1 & d2 & E1 & E2 & ->).
    destruct (pm_history_step _ _ _ _ E1 Hlen) as (H1 & Hc1 & Hs1 & Hs1').
    assert (Hlen1 :
      (List.length (Punching.past_mountains (Punching.mountain_window m1)) <= 3)%nat).
    { rewrite H1, length_rev. apply firstn_le_length. }
    destruct (IH _ _ _ E2 Hlen1) as (H2 & Hc2 & Hs2).
    split; [| split].
    + rewrite H2, H1, rev_involutive, rev_app_distr, <- app_assoc.
      f_equal. now apply firstn_app_firstn.
    + rewrite Hc2, Hc1, length_app, Nat2Z.inj_add. lia.
    + intro Hshown. apply Hs2.
      destruct d1 as [| d d1].
      * rewrite Hs1' by reflexivity. rewrite Hc1. simpl. lia.
      * apply Hs1. discriminate.
Qed.

(** Over any stream fed from the initial state, the mountain window of the
    punching application holds the last three events emitted, oldest first;
    [mountain_count] is the number of events emitted, and it is the number
    shown by the window. *)
Theorem pm_history_is_last_three :
  forall stream m detected,
    Punching.run Punching.MainWindow_init stream = Some (m, detected) ->
    Punching.past_mountains (Punching.mountain_window m) =
      rev (firstn 3 (rev detected)) /\
    Punching.mountain_count (Punching.realtime_widget m) =
      Z.of_nat (List.length detected) /\
    Punching.shown_count (Punching.mountain_window m) =
      Punching.mountain_count (Punching.realtime_widget m).
Proof.
  intros stream m detected Hrun.
  destruct (pm_history_run _ _ _ _ Hrun) as (H1 & H2 & H3); [simpl; lia |].
  simpl in H1, H2. rewrite app_nil_r in H1.
  repeat split; auto.
Qed.

Lemma pm_history_is_last_three_witness :
  exists m,
    Punching.run Punching.MainWindow_init (Scenario.two_pulses 150 200)
      = Some (m, [Scenario.pulse 2 150; Scenario.pulse 2.5 200]) /\
    Punching.past_mountains (Punching.mountain_window m) =
      [Scenario.pulse 2 150; Scenario.pulse 2.5 200] /\
    Punching.mountain_count (Punching.realtime_widget m) = 2%Z.
Proof.
  destruct (pm_run_total (Scenario.two_pulses 150 200) Punching.MainWindow_init)
    as (m & detected & E).
  assert (Hd : detected = [Scenario.pulse 2 150; Scenario.pulse 2.5 200]).
  { vm_compute in E. injection E as _ <-. reflexivity. }
  subst detected. exists m. split; [exact E |].
  destruct (pm_history_is_last_three _ _ _ E) as (H1 & H2 & _).
  split; [exact H1 | exact H2].
Defined.

(** ** The high scores are the top five *)

(** A non-increasing list is determined by its items. *)
Lemma sorted_perm_unique (l1 : list Z) :
  forall l2,
    StronglySorted Z.ge l1 -> StronglySorted Z.ge l2 ->
    Permutation l1 l2 -> l1 = l2.
Proof.
  induction l1 as [| x r1 IH]; intros l2 H1 H2 P.
  - apply Permutation_nil in P. now subst.
  - destruct l2 as [| y r2].
    + apply Permutation_sym, Permutation_nil in P. discriminate.
    + apply StronglySorted_inv in H1. destruct H1 as [Hr1 Hx].
      apply StronglySorted_inv in H2. destruct H2 as [Hr2 Hy].
      rewrite Forall_forall in Hx, Hy.
      assert (Hxy : (x <= y)%Z).
      { assert (Hin : In x (y :: r2))
          by (apply (Permutation_in _ P); now left).
        destruct Hin as [-> | Hin]; [lia |]. specialize (Hy x Hin). lia. }
      assert (Hyx : (y <= x)%Z).
      { assert (Hin : In y (x :: r1))
          by (apply (Permutation_in _ (Permutation_sym P)); now left).
        destruct Hin as [-> | Hin]; [lia |]. specialize (Hx y Hin). lia. }
      assert (x = y) by lia. subst y.
      f_equal. apply IH; auto. now apply Permutation_cons_inv in P.
Qed.

(** Sorting a list extended by one score inserts the score into the sorted
    list. *)
Lemma sort_reverse_snoc (l : list Z) (x : Z) :
  Py.sort_reverse (l ++ [x]) = Py.insert_desc x (Py.sort_reverse l).
Proof.
  apply sorted_perm_unique.
  - apply sort_reverse_sorted.
  - apply insert_desc_sorted, sort_reverse_sorted.
  - eapply perm_trans; [apply sort_reverse_perm |].
    eapply perm_trans; [apply Permutation_app_comm |]. simpl.
    apply Permutation_sym.
    eapply perm_trans; [apply insert_desc_perm |].
    apply perm_skip, sort_reverse_perm.
Qed.

Lemma sort_reverse_sorted_id (l : list Z) :
  StronglySorted Z.ge l -> Py.sort_reverse l = l.
Proof.
  intro H. apply sorted_perm_unique; auto.
  - apply sort_reverse_sorted.
  - apply sort_reverse_perm.
Qed.

Lemma firstn_cons_firstn {A} (n : nat) (y : A) (r : list A) :
  firstn n (y :: firstn n r) = firstn n (y :: r).
Proof.
  apply (firstn_app_firstn [y] n n r). lia.
Qed.

(** Where a score lands among the first [n] entries does not depend on the
    entries after them. *)
Lemma insert_desc_firstn (x : Z) (n : nat) :
  forall l,
    firstn n (Py.insert_desc x l) = firstn n (Py.insert_desc x (firstn n l)).
Proof.
  induction n as [| n IH]; intro l; [reflexivity |].
  destruct l as [| y r]; [reflexivity |].
  change (firstn (S n) (y :: r)) with (y :: firstn n r).
  cbn [Py.insert_desc]. destruct (y <? x)%Z.
  - change (x :: firstn n (y :: r) = x :: firstn n (y :: firstn n r)).
    f_equal. symmetry. apply firstn_cons_firstn.
  - change (y :: firstn n (Py.insert_desc x r) =
            y :: firstn n (Py.insert_desc x (firstn n r))).
    f_equal. apply IH.
Qed.

Lemma update_high_score_top5 (submitted : list Z) (score : Z)
    (w : Punching.PunchingScoreWidget) :
  Punching.high_scores w = firstn 5 (Py.sort_reverse submitted) ->
  exists w',
    Punching.update_high_score score w = Some w' /\
    Punching.high_scores w' =
      firstn 5 (Py.sort_reverse (submitted ++ [score])).
Proof.
  intro Hw.
  destruct (update_high_score_total score w) as (best & _ & ->).
  eexists. split; [reflexivity |]. cbn [Punching.high_scores].
  rewrite sort_reverse_snoc, Hw.
  rewrite (sort_reverse_sorted_id (firstn 5 (Py.sort_reverse submitted)))
    by (apply firstn_sorted, sort_reverse_sorted).
  rewrite <- insert_desc_firstn.
  now rewrite <- sort_reverse_snoc.
Qed.

Lemma submit_all_top5 (forces : list Q) :
  forall submitted w,
    Punching.high_scores w = firstn 5 (Py.sort_reverse submitted) ->
    exists w',
      Scenario.submit_all w forces = Some w' /\
      Punching.high_scores w' =
        firstn 5 (Py.sort_reverse (submitted ++ map Py.int forces)).
Proof.
  induction forces as [| f r IH]; intros submitted w Hw; simpl.
  - exists w. rewrite app_nil_r. auto.
  - unfold Punching.update_score.
    match goal with
    | |- context [Punching.update_high_score ?s ?v] =>
        destruct (update_high_score_top5 submitted s v) as (w1 & -> & H1)
    end.
    { exact Hw. }
    cbn [Py.bind].
    destruct (IH _ _ H1) as (w' & E & H').
    exists w'. split; [exact E |]. now rewrite <- app_assoc in H'.
Qed.

(** After any sequence of forces submitted through [update_score], the
    high scores are exactly the five highest of all the scores submitted,
    duplicates included, in non-increasing order: what sorting all of them
    and keeping five would give. *)
Theorem high_scores_are_top_five :
  forall forces,
  exists w,
    Scenario.submit_all Punching.PunchingScoreWidget_init forces = Some w /\
    Punching.high_scores w = firstn 5 (Py.sort_reverse (map Py.int forces)).
Proof.
  intro forces.
  destruct (submit_all_top5 forces [] Punching.PunchingScoreWidget_init eq_refl)
    as (w & E & H).
  exists w. split; [exact E | exact H].
Qed.

(** ** The score and its comment *)

(** [int] truncates toward zero. *)
Lemma int_truncates (f : Q) :
  (0 <= f -> inject_Z (Py.int f) <= f /\ f < inject_Z (Py.int f + 1)) /\
  (f <= 0 -> inject_Z (Py.int f - 1) < f /\ f <= inject_Z (Py.int f)).
Proof.
  destruct f as [a b]. unfold Py.int, Qle, Qlt. simpl.
  pose proof (Z.quot_rem' a (Zpos b)) as E.
  pose proof (Pos2Z.is_pos b) as Hb.
  split; intro Ha.
  - assert (H0 : (0 <= a)%Z) by lia.
    pose proof (Z.rem_bound_pos a (Zpos b) H0 Hb). nia.
  - assert (H0 : (a <= 0)%Z) by lia.
    pose proof (Z.rem_bound_pos_neg a (Zpos b) Hb H0). nia.
Qed.

(** Against a positive integer bound the score compares as the force does. *)
Lemma int_ltb (f : Q) (n : Z) :
  (0 < n)%Z -> (Py.int f <? n)%Z = Py.gtb (inject_Z n) f.
Proof.
  intro Hn.
  assert (Hn' : inject_Z 0 < inject_Z n) by (rewrite <- Zlt_Qlt; exact Hn).
  change (inject_Z 0) with 0 in Hn'.
  destruct (int_truncates f) as [Hpos Hneg].
  destruct (Py.gtb (inject_Z n) f) eqn:E; order_facts.
  - apply Z.ltb_lt.
    destruct (Qlt_le_dec f 0) as [Hf | Hf].
    + destruct Hneg as [Hlow _]; [lra |].
      assert (Hlt : inject_Z (Py.int f - 1) < inject_Z 0)
        by (change (inject_Z 0) with 0; lra).
      rewrite <- Zlt_Qlt in Hlt. lia.
    + destruct Hpos as [Hlow _]; [exact Hf |].
      rewrite Zlt_Qlt. lra.
  - apply Z.ltb_ge.
    destruct Hpos as [_ Hup]; [lra |].
    assert (Hlt : inject_Z n < inject_Z (Py.int f + 1)) by lra.
    rewrite <- Zlt_Qlt in Hlt. lia.
Qed.

(** On a finite force [update_score] does not raise; the score shown is the
    force truncated toward zero, and the colour of the comment is decided by
    the force itself against 500, 1000, 2000 and 3000: truncation never moves
    a force across a tier. *)
Theorem score_and_tier_of_force :
  forall (max_force : Q) (w : Punching.PunchingScoreWidget),
  exists w',
    Punching.update_score max_force w = Some w' /\
    Punching.score_label w' = Py.int max_force /\
    Punching.comment_color w' = Score.tier_of_force max_force /\
    (0 <= max_force ->
     inject_Z (Punching.score_label w') <= max_force /\
     max_force < inject_Z (Punching.score_label w' + 1)) /\
    (max_force <= 0 ->
     inject_Z (Punching.score_label w' - 1) < max_force /\
     max_force <= inject_Z (Punching.score_label w')).
Proof.
  intros max_force w. unfold Punching.update_score.
  match goal with
  | |- context [Punching.update_high_score ?s ?v] =>
      destruct (update_high_score_total s v) as (best & _ & ->)
  end.
  eexists. split; [reflexivity |].
  cbn [Punching.score_label Punching.comment_color].
  split; [reflexivity |]. split.
  - unfold Punching.color_of_score, Score.tier_of_force.
    rewrite !int_ltb by lia. reflexivity.
  - apply int_truncates.
Qed.

Lemma score_and_tier_of_force_witness :
  exists w',
    Punching.update_score 999.9 Punching.PunchingScoreWidget_init = Some w' /\
    Punching.score_label w' = 999%Z /\
    Punching.comment_color w' = "blue"%string.
Proof.
  destruct (score_and_tier_of_force 999.9 Punching.PunchingScoreWidget_init)
    as (w' & E & Hs & Hc & Hpos & _).
  exists w'. split; [exact E |]. split.
  - rewrite Hs. reflexivity.
  - rewrite Hc. reflexivity.
Defined.

(** ** The buffer over whole runs *)

Lemma fs_buffer_run (stream : list Py.sample) :
  forall m m' sigs,
    Fullscreen.run m stream = Some (m', sigs) ->
    Fullscreen.data_buffer (Fullscreen.realtime_widget m') =
    Window.feed (Fullscreen.data_buffer (Fullscreen.realtime_widget m)) stream.
Proof.
  induction stream as [| s r IH]; intros m m' sigs Hrun.
  - simpl in Hrun. injection Hrun as <- <-. reflexivity.
  - apply fs_run_cons in Hrun.
    destruct Hrun as (m1 & sig1 & sig2 & E1 & E2 & ->).
    rewrite (IH _ _ _ E2), (fs_buffer_step _ _ _ _ E1). reflexivity.
Qed.

Lemma pm_buffer_run (stream : list Py.sample) :
  forall m m' detected,
    Punching.run m stream = Some (m', detected) ->
    Punching.data_buffer (Punching.realtime_widget m') =
    Window.feed (Punching.data_buffer (Punching.realtime_widget m)) stream.
Proof.
  induction stream as [| s r IH]; intros m m' detected Hrun.
  - simpl in Hrun. injection Hrun as <- <-. reflexivity.
  - apply pm_run_cons in Hrun.
    destruct Hrun as (m1 & d1 & d2 & E1 & E2 & ->).
    rewrite (IH _ _ _ E2), (pm_buffer_step _ _ _ _ E1). reflexivity.
Qed.

Lemma append_and_evict_length (d : list Py.sample) (s : Py.sample) :
  (List.length d <= 500)%nat ->
  (List.length (Window.append_and_evict d s) <= 500)%nat.
Proof.
  intro Hd.
  destruct (append_and_evict_suffix d s) as [evicted Hev].
  assert (Hda : (List.length (Py.deque_append 500 d s) <= 500)%nat).
  { unfold Py.deque_append.
    destruct (500 <=? List.length d)%nat eqn:E.
    - apply Nat.leb_le in E. rewrite length_app. simpl.
      destruct d as [| x r]; simpl in *; lia.
    - apply Nat.leb_gt in E. rewrite length_app. simpl. lia. }
  unfold Window.append_and_evict.
  destruct (update_plot_suffix (Py.deque_append 500 d s)) as [ev Hup].
  rewrite <- Hup in Hda. rewrite length_app in Hda. lia.
Qed.

Lemma feed_length (stream : list Py.sample) :
  forall d,
    (List.length d <= 500)%nat ->
    (List.length (Window.feed d stream) <= 500)%nat.
Proof.
  induction stream as [| s r IH]; intros d Hd; simpl; [exact Hd |].
  apply IH, append_and_evict_length, Hd.
Qed.

(** Whatever the timestamps, after each sample the buffer of either
    application ends with that sample and holds at most 500 entries; so from
    the second sample on [data_buffer[-2]] exists at the next call and
    [prev_force] is the force of the sample received just before. *)
Theorem buffer_keeps_newest :
  (forall stream s,
      exists kept,
        Window.feed [] (stream ++ [s]) = kept ++ [s] /\
        (List.length (kept ++ [s]) <= 500)%nat /\
        forall next,
          Window.prev_force
            (Py.deque_append 500 (Window.feed [] (stream ++ [s])) next)
          = snd s) /\
  (forall stream m sigs,
      Fullscreen.run Fullscreen.MainWindow_init stream = Some (m, sigs) ->
      Fullscreen.data_buffer (Fullscreen.realtime_widget m) =
      Window.feed [] stream) /\
  (forall stream m detected,
      Punching.run Punching.MainWindow_init stream = Some (m, detected) ->
      Punching.data_buffer (Punching.realtime_widget m) =
      Window.feed [] stream).
Proof.
  split; [| split].
  - intros stream s. rewrite feed_app. simpl.
    destruct (append_and_evict_keeps_last (Window.feed [] stream) s)
      as [kept E].
    exists kept. split; [exact E |]. split.
    + rewrite <- E. apply append_and_evict_length, feed_length. simpl. lia.
    + intro next. rewrite E. apply prev_force_after_append.
  - intros stream m sigs Hrun. apply (fs_buffer_run _ _ _ _ Hrun).
  - intros stream m detected Hrun. apply (pm_buffer_run _ _ _ _ Hrun).
Qed.

Lemma buffer_keeps_newest_witness :
  exists m sigs,
    Fullscreen.run Fullscreen.MainWindow_init Scenario.backwards
      = Some (m, sigs) /\
    Fullscreen.data_buffer (Fullscreen.realtime_widget m) =
    Window.feed [] Scenario.backwards.
Proof.
  eexists _, _. split.
  - vm_compute. reflexivity.
  - eapply (proj1 (proj2 buffer_keeps_newest) Scenario.backwards).
    vm_compute. reflexivity.
Defined.
